(** * Film locations map: record extraction and geocode lookup

    A shallow embedding of [film_map_app.py]: the tolerant extractor
    [load_and_parse_xml_data] over an ElementTree document, the cached
    lookup [geocode_location] over geopy's [RateLimiter], and the part of
    the Streamlit script that consumes both.

    Conventions.
    - Python [str] is [string]; the text of the documents is taken to be
      ASCII (one character per byte).
    - A Python value that may be [None] is an [option].
    - A Python [float] is a binary64 value, [spec_float] with precision 53
      and maximal exponent 1024.
    - Exceptions are values of [exn]; code that may raise returns [exc A].
    - Wall-clock time is an integer number of milliseconds. *)

From Stdlib Require Import ZArith Ascii String List Bool Lia.
From Stdlib Require Import Floats.SpecFloat.
From stdpp Require Import base option list strings pretty gmap.

Set Warnings "-register-all".

Local Open Scope string_scope.
Local Open Scope Z_scope.

(** ** Exceptions *)

Inductive exn : Type :=
  | ValueError
  | IndexError
  | AttributeError
  | TypeError
  | ParseError
  | OSError
  | GeocoderServiceError
  | OtherError.

Inductive exc (A : Type) : Type :=
  | Ok (a : A)
  | Raise (e : exn).
Arguments Ok {A} a.
Arguments Raise {A} e.

Definition exc_bind {A B : Type} (m : exc A) (k : A -> exc B) : exc B :=
  match m with
  | Ok a => k a
  | Raise e => Raise e
  end.

Notation "x <-! m ; k" := (exc_bind m (fun x => k))
  (at level 100, m at next level, right associativity).

(** Python truthiness of an optional string: [None] and [''] are falsy. *)
Definition truthy (s : option string) : bool :=
  match s with
  | None => false
  | Some "" => false
  | Some _ => true
  end.

(** [c.isspace()] for an ASCII character. *)
Definition is_whitespace (c : ascii) : bool :=
  let n := N_of_ascii c in
  ((9 <=? n) && (n <=? 13) || (28 <=? n) && (n <=? 32))%N.

(** ** String methods used by the extractor *)

Module PyStr.

Definition in_chars (chars : string) (c : ascii) : bool :=
  existsb (Ascii.eqb c) (list_ascii_of_string chars).

(** [s.lstrip(chars)] *)
Fixpoint lstrip (chars s : string) : string :=
  match s with
  | "" => ""
  | String c r => if in_chars chars c then lstrip chars r else s
  end.

(** [s.rstrip(chars)] *)
Fixpoint rstrip (chars s : string) : string :=
  match s with
  | "" => ""
  | String c r =>
      match rstrip chars r with
      | "" => if in_chars chars c then "" else String c ""
      | r' => String c r'
      end
  end.

(** [s.strip(chars)] *)
Definition strip (chars s : string) : string := rstrip chars (lstrip chars s).

(** [Some rest] when [s = p ++ rest]. *)
Fixpoint strip_prefix (p s : string) : option string :=
  match p, s with
  | "", _ => Some s
  | String a p', String b s' => if Ascii.eqb a b then strip_prefix p' s' else None
  | String _ _, "" => None
  end.

(** [s.replace(old, new)] for a non-empty [old]: occurrences are replaced
    from the left and do not overlap.  Each step consumes at least one
    character, so [String.length s] steps always suffice. *)
Fixpoint replace_steps (n : nat) (old new s : string) : string :=
  match n with
  | O => s
  | S n' =>
      match s with
      | "" => ""
      | String c r =>
          match strip_prefix old s with
          | Some rest => new +:+ replace_steps n' old new rest
          | None => String c (replace_steps n' old new r)
          end
      end
  end.

Definition replace (old new s : string) : string :=
  match old with
  | "" => s (* not used by the program: [old] is ', ,' *)
  | _ => replace_steps (String.length s) old new s
  end.

(** A match of [[^>]+>] at the head of [s], the text after it. The class
    is greedy and excludes only '>', so it runs to the first '>'. *)
Fixpoint after_gt (s : string) : option string :=
  match s with
  | "" => None
  | String c r => if Ascii.eqb c ">" then Some r else after_gt r
  end.

(** A match of the pattern [<[^>]+>] at the head of [s]. *)
Definition match_tag (s : string) : option string :=
  match s with
  | String c1 (String c2 r) =>
      if Ascii.eqb c1 "<" && negb (Ascii.eqb c2 ">") then after_gt r else None
  | _ => None
  end.

(** [re.sub('<[^>]+>', repl, s)]: leftmost matches, not overlapping. *)
Fixpoint re_sub_tag_steps (n : nat) (repl s : string) : string :=
  match n with
  | O => s
  | S n' =>
      match s with
      | "" => ""
      | String c r =>
          match match_tag s with
          | Some rest => repl +:+ re_sub_tag_steps n' repl rest
          | None => String c (re_sub_tag_steps n' repl r)
          end
      end
  end.

Definition re_sub_tag (repl s : string) : string :=
  re_sub_tag_steps (String.length s) repl s.

End PyStr.

(** Line 50: [re.sub('<[^>]+>', ', ', t).replace(', ,', ', ').strip(', ')]. *)
Definition clean_location_text (t : string) : string :=
  PyStr.strip ", " (PyStr.replace ", ," ", " (PyStr.re_sub_tag ", " t)).

(** ** The built-in [float(str)] *)

Module PyFloat.

Definition prec : Z := 53.
Definition emax : Z := 1024.

Definition is_finite (x : spec_float) : bool :=
  match x with
  | S754_zero _ | S754_finite _ _ _ => true
  | S754_infinity _ | S754_nan => false
  end.

(** [Py_ISSPACE]: tab, line feed, vertical tab, form feed, carriage
    return and space. *)
Definition is_space (c : ascii) : bool :=
  let n := N_of_ascii c in
  ((9 <=? n) && (n <=? 13) || (n =? 32))%N.

Definition is_digit (c : ascii) : bool :=
  let n := N_of_ascii c in ((48 <=? n) && (n <=? 57))%N.

Definition digit_val (c : ascii) : Z := Z.of_N (N_of_ascii c) - 48.

Definition lower (c : ascii) : ascii :=
  let n := N_of_ascii c in
  if ((65 <=? n) && (n <=? 90))%N then ascii_of_N (n + 32) else c.

Fixpoint lstrip_space (s : list ascii) : list ascii :=
  match s with
  | c :: r => if is_space c then lstrip_space r else s
  | [] => []
  end.

Definition strip_space (s : list ascii) : list ascii :=
  rev (lstrip_space (rev (lstrip_space s))).

(** Underscores are dropped when each stands between two digits; any
    other underscore is an error. [prev] is the character before [s]. *)
Fixpoint drop_underscores (prev : option ascii) (s : list ascii)
  : option (list ascii) :=
  match s with
  | [] => match prev with
          | Some "_"%char => None
          | _ => Some []
          end
  | c :: r =>
      if Ascii.eqb c "_" then
        match prev with
        | Some p => if is_digit p then drop_underscores (Some c) r else None
        | None => None
        end
      else
        match prev with
        | Some "_"%char =>
            if is_digit c then cons c <$> drop_underscores (Some c) r else None
        | _ => cons c <$> drop_underscores (Some c) r
        end
  end.

(** The longest prefix of digits, and what follows it. *)
Fixpoint span_digits (s : list ascii) : list ascii * list ascii :=
  match s with
  | c :: r =>
      if is_digit c then let '(d, t) := span_digits r in (c :: d, t)
      else ([], s)
  | [] => ([], [])
  end.

Definition digits_value (d : list ascii) : Z :=
  fold_left (fun acc c => 10 * acc + digit_val c) d 0.

Definition take_sign (s : list ascii) : bool * list ascii :=
  match s with
  | "-"%char :: r => (true, r)
  | "+"%char :: r => (false, r)
  | _ => (false, s)
  end.

(** The value [(-1)^neg * m * 10^e10] rounded to the nearest binary64,
    ties to even; out of range it is an infinity, below range a zero.
    The two shortcuts only spare the computation of huge powers:
    [2^(4j) >= 10^j] and [2^(3j) < 10^j] put the value beyond the
    largest finite double, or under half the least subnormal. *)
Definition round_decimal (neg : bool) (m e10 : Z) : spec_float :=
  if m =? 0 then S754_zero neg
  else if 310 <=? e10 + Z.log2 m / 4 then S754_infinity neg
  else if e10 + (Z.log2 m + 1) / 3 + 1 <=? -330 then S754_zero neg
  else
    let sm := if neg then - m else m in
    if 0 <=? e10 then binary_normalize prec emax (sm * 10 ^ e10) 0 false
    else
      let d := 10 ^ (- e10) in
      let k := 64 + Z.log2_up d in
      let q := (m * 2 ^ k) / d in
      let sticky := if (m * 2 ^ k) mod d =? 0 then 0 else 1 in
      let mq := 2 * q + sticky in
      binary_normalize prec emax (if neg then - mq else mq) (- (k + 1)) false.

(** The exponent part [e|E [sign] digits]; without digits it is not an
    exponent and the text is left unread. *)
Definition parse_exponent (s : list ascii) : Z * list ascii :=
  match s with
  | c :: r =>
      if Ascii.eqb (lower c) "e" then
        let '(eneg, r1) := take_sign r in
        let '(d, r2) := span_digits r1 in
        match d with
        | [] => (0, s)
        | _ => ((if eneg then - digits_value d else digits_value d), r2)
        end
      else (0, s)
  | [] => (0, [])
  end.

(** [digits [. digits] [exponent]] or [. digits [exponent]] *)
Definition parse_decimal (neg : bool) (s : list ascii)
  : option (spec_float * list ascii) :=
  let '(ip, r1) := span_digits s in
  let '(fp, r2) :=
    match r1 with
    | "."%char :: r => span_digits r
    | _ => ([], r1)
    end in
  match (ip ++ fp)%list with
  | [] => None
  | ds =>
      let '(e, r3) := parse_exponent r2 in
      Some (round_decimal neg (digits_value ds) (e - Z.of_nat (length fp)), r3)
  end.

(** [inf], [infinity] and [nan], in any letter case. *)
Definition parse_inf_or_nan (neg : bool) (s : list ascii)
  : option (spec_float * list ascii) :=
  let low := map lower s in
  if decide (take 8 low = list_ascii_of_string "infinity")
  then Some (S754_infinity neg, drop 8 s)
  else if decide (take 3 low = list_ascii_of_string "inf")
  then Some (S754_infinity neg, drop 3 s)
  else if decide (take 3 low = list_ascii_of_string "nan")
  then Some (S754_nan, drop 3 s)
  else None.

Definition parse_number (s : list ascii) : option (spec_float * list ascii) :=
  let '(neg, r) := take_sign s in
  match parse_decimal neg r with
  | Some res => Some res
  | None => parse_inf_or_nan neg r
  end.

(** [float(s)]: [None] stands for [ValueError]. The whole text, white
    space at both ends apart, has to be a number. *)
Definition float_of_string (s : string) : option spec_float :=
  match drop_underscores None (strip_space (list_ascii_of_string s)) with
  | None => None
  | Some body =>
      match parse_number body with
      | Some (x, []) => Some x
      | _ => None
      end
  end.

End PyFloat.

(** [float(s)] as an expression that may raise. *)
Definition py_float (s : string) : exc spec_float :=
  match PyFloat.float_of_string s with
  | Some x => Ok x
  | None => Raise ValueError
  end.

(** ** ElementTree elements and the path queries the program uses *)

Module ET.

Inductive Element : Type :=
  mkElement (tag : string) (attrib : gmap string string)
            (text : option string) (children : list Element).

Definition tag (e : Element) : string :=
  match e with mkElement t _ _ _ => t end.
Definition attrib (e : Element) : gmap string string :=
  match e with mkElement _ a _ _ => a end.
Definition text (e : Element) : option string :=
  match e with mkElement _ _ x _ => x end.
Definition children (e : Element) : list Element :=
  match e with mkElement _ _ _ c => c end.

(** [e.iter()]: the element, then its subtree in document order. *)
Fixpoint iter (e : Element) : list Element :=
  match e with
  | mkElement _ _ _ c => e :: flat_map iter c
  end.

Definition has_tag (t : string) (e : Element) : bool := String.eqb (tag e) t.

(** [e.findall('.//t')]: the proper descendants with tag [t]. *)
Definition findall_desc (t : string) (e : Element) : list Element :=
  List.filter (has_tag t) (flat_map iter (children e)).

(** [e.find('.//t')] *)
Definition find_desc (t : string) (e : Element) : option Element :=
  head (findall_desc t e).

(** [e.findall('t')]: the children with tag [t]. *)
Definition findall (t : string) (e : Element) : list Element :=
  List.filter (has_tag t) (children e).

(** [e.find('t')] *)
Definition find (t : string) (e : Element) : option Element :=
  head (findall t e).

(** [e.get(key)] *)
Definition get (key : string) (e : Element) : option string := attrib e !! key.

End ET.
Import ET.

(** Tags in the namespace [urn:schemas-microsoft-com:office:spreadsheet]. *)
Definition ss (name : string) : string :=
  "{urn:schemas-microsoft-com:office:spreadsheet}" +:+ name.

(** ** The record extractor *)

(** One dictionary appended to [locations_data], later a row of the
    [DataFrame]. [Film], [Borough] and [Neighborhood] hold the text of a
    [Data] element, which is [None] when the element is empty. *)
Record LocationRecord : Type := mkLocation {
  Film : option string;
  Location_Display_Text : string;
  LATITUDE : spec_float;
  LONGITUDE : spec_float;
  Borough : option string;
  Neighborhood : option string
}.

(** The [DataFrame] built from the list of dictionaries: its rows in order. *)
Definition DataFrame : Type := list LocationRecord.

(** [c = cells[i].find('ss:Data'); c.text if c is not None else default] *)
Definition data_text (cells : list Element) (i : nat) (default : option string)
  : exc (option string) :=
  match cells !! i with
  | None => Raise IndexError
  | Some cell =>
      match ET.find (ss "Data") cell with
      | Some data => Ok (ET.text data)
      | None => Ok default
      end
  end.

(** [float(s) if s else None] *)
Definition float_or_none (s : option string) : exc (option spec_float) :=
  match s with
  | Some t => if truthy s then (x <-! py_float t; Ok (Some x)) else Ok None
  | None => Ok None
  end.

(** Lines 44 to 75, the body of the inner [try]: the dictionary to append,
    if any. [re.sub] raises [TypeError] on [None]. *)
Definition row_body (cells : list Element) : exc (option LocationRecord) :=
  film <-! data_text cells 0 (Some "N/A");
  location_text <-! data_text cells 8 (Some "");
  location_text <-! match location_text with
                    | Some t => Ok (clean_location_text t)
                    | None => Raise TypeError
                    end;
  lat_str <-! data_text cells 9 None;
  lon_str <-! data_text cells 10 None;
  borough <-! data_text cells 11 (Some "N/A");
  neighborhood <-! data_text cells 12 (Some "N/A");
  lat <-! float_or_none lat_str;
  lon <-! float_or_none lon_str;
  match lat, lon with
  | Some la, Some lo =>
      if bool_decide (film <> Some "N/A")
      then Ok (Some (mkLocation film location_text la lo borough neighborhood))
      else Ok None
  | _, _ => Ok None
  end.

(** [except (ValueError, IndexError, AttributeError): continue] *)
Definition row_except (e : exn) : bool :=
  match e with
  | ValueError | IndexError | AttributeError => true
  | _ => false
  end.

(** What one iteration of the loop of line 40 does with its row. *)
Inductive row_outcome : Type :=
  | Appended (r : LocationRecord) (* line 68 *)
  | NotAppended                   (* the test of line 67 is false *)
  | TooFewCells                   (* the test of line 42 is false *)
  | Skipped (e : exn)             (* line 77: [continue] *)
  | Escaped (e : exn).            (* not caught by line 76 *)

Definition process_row (row : Element) : row_outcome :=
  let cells := ET.findall (ss "Cell") row in
  if (13 <=? length cells)%nat then
    match row_body cells with
    | Ok (Some r) => Appended r
    | Ok None => NotAppended
    | Raise e => if row_except e then Skipped e else Escaped e
    end
  else TooFewCells.

(** The loop of line 40 over [rows], [locations_data] being the list built
    so far; an exception that escapes a row ends the loop. *)
Fixpoint for_rows (rows : list Element) (locations_data : list LocationRecord)
  : exc (list LocationRecord) :=
  match rows with
  | [] => Ok locations_data
  | row :: rest =>
      match process_row row with
      | Appended r => for_rows rest (locations_data ++ [r])%list
      | NotAppended | TooFewCells | Skipped _ => for_rows rest locations_data
      | Escaped e => Raise e
      end
  end.

(** The statement through which [load_and_parse_xml_data] returns. *)
Inductive load_exit : Type :=
  | WorksheetNotFound          (* line 32, [None] *)
  | TableNotFound              (* line 35, [None] *)
  | NotEnoughRows              (* line 38, [None] *)
  | Loaded (df : DataFrame)    (* line 80 *)
  | NoLocations                (* line 82, [None] *)
  | ProcessingError (e : exn). (* line 86, [None] after [st.error] *)

Definition is_full_map_list (ws : Element) : bool :=
  bool_decide (ET.get (ss "Name") ws = Some "Full Map List").

(** [file] is what [ET.parse(xml_file_path).getroot()] gives: the root
    element, or the exception raised for a missing or malformed file. *)
Definition load_and_parse_xml_data_exit (file : exc Element) : load_exit :=
  match file with
  | Raise e => ProcessingError e
  | Ok root =>
      match List.find is_full_map_list (ET.findall_desc (ss "Worksheet") root) with
      | None => WorksheetNotFound
      | Some worksheet =>
          match ET.find_desc (ss "Table") worksheet with
          | None => TableNotFound
          | Some table =>
              let rows := ET.findall_desc (ss "Row") table in
              if (length rows <=? 3)%nat then NotEnoughRows
              else
                match for_rows (drop 3 rows) [] with
                | Raise e => ProcessingError e
                | Ok [] => NoLocations
                | Ok locations_data => Loaded locations_data
                end
          end
      end
  end.

(** The value returned: the [DataFrame], or [None]. *)
Definition load_and_parse_xml_data (file : exc Element) : option DataFrame :=
  match load_and_parse_xml_data_exit file with
  | Loaded df => Some df
  | _ => None
  end.

(** The conditions of the error taxonomy, as sets of exits. *)
Definition MissingSection (x : load_exit) : Prop :=
  x = WorksheetNotFound \/ x = TableNotFound.

Definition EmptyResult (x : load_exit) : Prop :=
  x = NotEnoughRows \/ x = NoLocations.

(** The text of the [Data] element of cell [i] of a row: [None] when the
    row has no such cell, the cell no [Data] element, or the element no text. *)
Definition cell_text (i : nat) (row : Element) : option string :=
  cell ← ET.findall (ss "Cell") row !! i;
  data ← ET.find (ss "Data") cell;
  ET.text data.

(** The worksheet, the table and the rows the extractor settles on. *)
Definition find_worksheet (root : Element) : option Element :=
  List.find is_full_map_list (ET.findall_desc (ss "Worksheet") root).

Definition find_rows (root : Element) : option (list Element) :=
  worksheet ← find_worksheet root;
  table ← ET.find_desc (ss "Table") worksheet;
  Some (ET.findall_desc (ss "Row") table).

(** The dictionary a row contributes, if it contributes one. *)
Definition appended_record (row : Element) : option LocationRecord :=
  match process_row row with
  | Appended r => Some r
  | _ => None
  end.

(** ** Sample documents *)

Definition data_cell (t : option string) : Element :=
  mkElement (ss "Cell") ∅ None [mkElement (ss "Data") ∅ t []].

Definition blank_cell : Element := mkElement (ss "Cell") ∅ None [].

Definition row_of (cells : list Element) : Element :=
  mkElement (ss "Row") ∅ None cells.

(** A row of thirteen cells; the cells the program does not read are blank. *)
Definition film_row (film location lat lon borough neighborhood : option string)
  : Element :=
  row_of ([data_cell film] ++ replicate 7 blank_cell ++
          [data_cell location; data_cell lat; data_cell lon;
           data_cell borough; data_cell neighborhood])%list.

Definition workbook (sheet_name : string) (rows : list Element) : Element :=
  mkElement (ss "Workbook") ∅ None
    [mkElement (ss "Worksheet") {[ ss "Name" := sheet_name ]} None
       [mkElement (ss "Table") ∅ None rows]].

Definition header_rows : list Element :=
  [row_of [data_cell (Some "Film locations")]; row_of []; row_of [data_cell (Some "Film")]].

Definition ghostbusters_row : Element :=
  film_row (Some "Ghostbusters") (Some "55 Central Park W<br>Manhattan")
           (Some "40.7") (Some "-74.0") (Some "Manhattan") (Some "Upper West Side").

(** A data row whose latitude overflows binary64 and whose longitude is
    the text [nan]. *)
Definition overflow_row : Element :=
  film_row (Some "Ghostbusters") (Some "55 Central Park W")
           (Some "1e999") (Some "nan") (Some "Manhattan") (Some "Upper West Side").

(** Data rows whose location cell holds an empty [Data] element, the
    latitude being the text [abc], or empty. *)
Definition abc_latitude_row : Element :=
  film_row (Some "Annie Hall") None (Some "abc") (Some "-73.9")
           (Some "Manhattan") (Some "Upper East Side").

Definition empty_latitude_row : Element :=
  film_row (Some "Annie Hall") None (Some "") (Some "-73.9")
           (Some "Manhattan") (Some "Upper East Side").

(** A data row whose film is the text [N/A]. *)
Definition na_row : Element :=
  film_row (Some "N/A") (Some "Times Square") (Some "40.758") (Some "-73.9855")
           (Some "Manhattan") (Some "Midtown").

(** ** The geocoding provider and the clock *)

Definition coords : Type := (spec_float * spec_float)%type.

(** What one call of [_geolocator.geocode(query, timeout=10)] comes to. *)
Inductive response : Type :=
  | Found (latitude longitude : spec_float) (* a [Location] *)
  | NoMatch                                 (* [None] *)
  | ServiceFailure                          (* a [GeocoderServiceError], time-outs included *)
  | Failure (e : exn).                      (* any other exception *)

(** The process as the provider sees it: the clock, in milliseconds, and
    the requests sent so far, oldest first, each with its sending time. *)
Record World : Type := mkWorld {
  now : Z;
  requests : list (Z * string)
}.

Definition sleep (ms : Z) (w : World) : World :=
  mkWorld (now w + ms) (requests w).

(** Messages shown by [st.sidebar] and [st]. *)
Inductive message : Type :=
  | Warning (text : string) (e : option exn)
  | Error (text : string) (e : option exn)
  | Info (text : string)
  | Success (text : string)
  | Write (text : string).

(** geopy's [RateLimiter], as its documentation and code describe it:
    the wrapped function is not called before [min_delay_seconds] have
    passed since the limiter's own last call; a [GeocoderServiceError] is
    retried [max_retries] times, [error_wait_seconds] apart, and swallowed
    after the last try; any other exception is raised again. *)
Module RateLimiter.

Record t : Type := mk {
  min_delay : Z;          (* milliseconds *)
  max_retries : nat;
  error_wait : Z;         (* milliseconds *)
  last_call : option Z    (* [_last_call], [None] in a new limiter *)
}.

(** [RateLimiter(func, min_delay_seconds=s)], the other arguments at
    their defaults: [max_retries=2], [error_wait_seconds=5.0],
    [swallow_exceptions=True], [return_value_on_exception=None]. *)
Definition new (min_delay_seconds : Z) : t :=
  mk (1000 * min_delay_seconds) 2 5000 None.

Definition touch (rl : t) (clock : Z) : t :=
  mk (min_delay rl) (max_retries rl) (error_wait rl) (Some clock).

(** [_acquire_request_slot]: a first call starts at once; a later one
    sleeps for what is left of the delay. *)
Definition acquire_request_slot (rl : t) (w : World) : t * World :=
  match last_call rl with
  | None => (touch rl (now w), w)
  | Some last =>
      let wait := min_delay rl - (now w - last) in
      if wait <=? 0 then (touch rl (now w), w)
      else (touch rl (now w + wait), sleep wait w)
  end.

Section Call.
(** The wrapped function: its reply to a query and the time it took. *)
Variable func : World -> string -> response * N.

Definition send (query : string) (w : World) : response * World :=
  let '(r, took) := func w query in
  (r, mkWorld (now w + Z.of_N took) (requests w ++ [(now w, query)])%list).

(** [rl(query)] with [retries] retries left. *)
Fixpoint call (retries : nat) (rl : t) (query : string) (w : World)
  : exc (option coords) * t * World :=
  let '(rl1, w1) := acquire_request_slot rl w in
  let '(r, w2) := send query w1 in
  match r with
  | Found la lo => (Ok (Some (la, lo)), rl1, w2)
  | NoMatch => (Ok None, rl1, w2)
  | Failure e => (Raise e, rl1, w2)
  | ServiceFailure =>
      match retries with
      | O => (Ok None, rl1, w2)
      | S n => call n rl1 query (sleep (error_wait rl1) w2)
      end
  end.

Definition run (rl : t) (query : string) (w : World)
  : exc (option coords) * t * World :=
  call (max_retries rl) rl query w.
End Call.

End RateLimiter.

(** ** The geocode lookup *)

Section Lookup.

(** [_geolocator.geocode] with its ten-second time-out. *)
Variable geocode : World -> string -> response * N.

(** Lines 97 to 109: the outcome, the sidebar messages and the world
    after the call. *)
Definition geocode_location_body (query : string) (w : World)
  : option coords * list message * World :=
  if String.eqb query "" then (None, [], w)
  else
    let geocode_func := RateLimiter.new 1 in
    let '(location, _, w') := RateLimiter.run geocode geocode_func query w in
    match location with
    | Ok (Some c) => (Some c, [], w')
    | Ok None => (None, [Warning ("Location not found: " +:+ query) None], w')
    | Raise e => (None, [Error ("Geocoding error for '" +:+ query +:+ "'") (Some e)], w')
    end.

(** [st.cache_data]: the outcomes kept for the life of the process, by
    query (the argument [_geolocator] is not part of the key), with the
    messages to show again. *)
Record Lookup : Type := mkLookup {
  cache : gmap string (option coords * list message);
  world : World
}.

(** The decorated [geocode_location]. *)
Definition geocode_location (query : string) (st : Lookup)
  : option coords * list message * Lookup :=
  match cache st !! query with
  | Some (outcome, shown) => (outcome, shown, st)
  | None =>
      let '(outcome, shown, w') := geocode_location_body query (world st) in
      (outcome, shown, mkLookup (<[query := (outcome, shown)]> (cache st)) w')
  end.

(** Lookups one after the other, nothing else happening in between. *)
Fixpoint lookups (queries : list string) (st : Lookup) : Lookup :=
  match queries with
  | [] => st
  | q :: rest => lookups rest (geocode_location q st).2
  end.

End Lookup.

(** The empty query is only ever cached as "no result". *)
Definition empty_query_inv (st : Lookup) : Prop :=
  cache st !! "" = None \/ cache st !! "" = Some (None, []).

(** A provider that finds every place in 120 milliseconds. *)
Definition quick_provider (w : World) (query : string) : response * N :=
  (Found (S754_zero false) (S754_zero false), 120%N).

Definition fresh : Lookup := mkLookup ∅ (mkWorld 0 []).

(** ** The script *)

Definition FILE_PATH : string := "Interactive_Map_Data.xml".
Definition DEFAULT_ZOOM : Z := 11.

(** A place on the map: the list [DEFAULT_CENTER], or a pair of
    coordinates (the tuple of a lookup, the position of a record). *)
Inductive Center : Type :=
  | DEFAULT_CENTER
  | At (c : coords).

Record Marker : Type := mkMarker {
  location : Center;
  popup : option string;
  tooltip : string;
  icon : string * string (* colour and glyph *)
}.

(** What a run puts on the page, in order: messages, the map and the
    table. The title and the headers, the same in every run, are left
    out. *)
Inductive widget : Type :=
  | Sidebar (msg : message)
  | Main (msg : message)
  | MapView (center : Center) (zoom : Z) (markers : list Marker)
  | DataTable (df : DataFrame).

(** The variables of the script after line 116. *)
Record Vars : Type := mkVars {
  data_df : DataFrame;
  map_center : Center;
  map_zoom : Z;
  m : list Marker;
  count : nat;
  page : list widget
}.

Definition show (w : widget) (v : Vars) : Vars :=
  mkVars (data_df v) (map_center v) (map_zoom v) (m v) (count v) (page v ++ [w])%list.

Definition add_to_m (k : Marker) (v : Vars) : Vars :=
  mkVars (data_df v) (map_center v) (map_zoom v) (m v ++ [k])%list (count v) (page v).

Definition count_one (v : Vars) : Vars :=
  mkVars (data_df v) (map_center v) (map_zoom v) (m v) (S (count v)) (page v).

Definition center_on (c : coords) (v : Vars) : Vars :=
  mkVars (data_df v) (At c) 14 (m v) (count v) (page v).

(** What lives as long as the process: the two [st.cache_data] stores and
    the world of the lookups. *)
Record Session : Type := mkSession {
  load_cache : gmap string (option DataFrame * list message);
  lookup : Lookup
}.

Inductive run_result : Type :=
  | Stopped (page : list widget)    (* [st.stop()], line 124 *)
  | Crashed (e : exn) (v : Vars)      (* an exception left the script *)
  | Done (v : Vars).

(** [str(x)] of an optional text in an f-string. *)
Definition py_str (x : option string) : string := default "None" x.

Section Script.

Variable geocode : World -> string -> response * N.
(** [format(x, '.nf')] *)
Variable format_float : nat -> spec_float -> string.
(** [folium.Map(location=..., zoom_start=...)] of line 143,
    [folium.Marker(...)] and [st_folium(m, center=..., zoom=...)] of line
    194, each of which may reject its arguments. *)
Variable folium_Map : Center -> Z -> exc unit.
Variable folium_Marker : Center -> option string -> string -> string * string -> exc Marker.
Variable st_folium : Center -> Z -> list Marker -> exc unit.

(** What [load_and_parse_xml_data] shows: the [st.error] of line 85 when
    the function ends in the handler of line 84. *)
Definition load_and_parse_xml_data_shown (file : exc Element) : list message :=
  match load_and_parse_xml_data_exit file with
  | ProcessingError e => [Error "Error during XML processing" (Some e)]
  | _ => []
  end.

(** Line 116 under [st.cache_data]: the value is computed on the first
    call for a path and kept, with the messages to show again. *)
Definition cached_load (path : string) (file : exc Element)
    (c : gmap string (option DataFrame * list message))
  : (option DataFrame * list message)
    * gmap string (option DataFrame * list message) :=
  match c !! path with
  | Some entry => (entry, c)
  | None =>
      let entry := (load_and_parse_xml_data file,
                    load_and_parse_xml_data_shown file) in
      (entry, <[path := entry]> c)
  end.

(** Lines 132 to 137. *)
Definition search_step (search_query : string) (v : Vars) (lk : Lookup)
  : Vars * Lookup :=
  if String.eqb search_query "" then (v, lk)
  else
    let '(found, shown, lk') := geocode_location geocode search_query lk in
    let v1 := fold_left (fun acc msg => show (Sidebar msg) acc) shown v in
    match found with
    | Some c =>
        (show (Sidebar (Info ("Map centered on: (" +:+ format_float 4 c.1 +:+ ", "
                               +:+ format_float 4 c.2 +:+ ")")))
              (center_on c v1), lk')
    | None => (v1, lk')
    end.

Definition nl : string := String (ascii_of_nat 10) "".

Definition popup_html (r : LocationRecord) : string :=
  nl +:+ "        <b>Film:</b> " +:+ py_str (Film r) +:+ "<br>" +:+ nl +:+
  "        <b>Location:</b> " +:+ Location_Display_Text r +:+ "<br>" +:+ nl +:+
  "        <b>Neighborhood:</b> " +:+ py_str (Neighborhood r) +:+ " (" +:+
       py_str (Borough r) +:+ ")<br>" +:+ nl +:+
  "        <b>Coords:</b> (" +:+ format_float 5 (LATITUDE r) +:+ ", " +:+
       format_float 5 (LONGITUDE r) +:+ ")" +:+ nl +:+ "        ".

(** Lines 149 to 179, one row of [data_df.iterrows()]. *)
Definition plot_row (idx : nat) (row : LocationRecord) (v : Vars) : Vars :=
  let tooltip_text := py_str (Film row) +:+ ": " +:+ Location_Display_Text row in
  match folium_Marker (At (LATITUDE row, LONGITUDE row))
                      (Some (popup_html row)) tooltip_text ("darkblue", "film") with
  | Ok k => count_one (add_to_m k v)
  | Raise e =>
      show (Main (Warning ("Error plotting row " +:+ pretty idx +:+ " ('"
                         +:+ py_str (Film row) +:+ "')") (Some e))) v
  end.

Fixpoint plot_rows (idx : nat) (rows : list LocationRecord) (v : Vars) : Vars :=
  match rows with
  | [] => v
  | row :: rest => plot_rows (S idx) rest (plot_row idx row v)
  end.

(** Lines 146 to 181. *)
Definition plot_step (v : Vars) : Vars :=
  let v1 := show (Main (Write ("Plotting " +:+ pretty (length (data_df v))
                               +:+ " film locations..."))) v in
  let v2 := plot_rows 0 (data_df v1) v1 in
  show (Main (Write ("Successfully plotted " +:+ pretty (count v2) +:+ " locations."))) v2.

(** Lines 184 to 189; [map_center != DEFAULT_CENTER] holds for every
    tuple. *)
Definition search_marker_step (search_query : string) (v : Vars) : exc Vars :=
  match map_center v with
  | At _ =>
      if String.eqb search_query "" then Ok v
      else
        k <-! folium_Marker (map_center v) None ("Searched: " +:+ search_query)
                            ("green", "search");
        Ok (add_to_m k v)
  | DEFAULT_CENTER => Ok v
  end.

(** Lines 194 to 198. *)
Definition render_step (show_table : bool) (v : Vars) : Vars :=
  let v1 := show (MapView (map_center v) (map_zoom v) (m v)) v in
  if show_table then show (DataTable (data_df v1)) v1 else v1.

(** Lines 120 to 198, once the data are there; [shown] is what the load
    has put on the page. The map of line 143, the marker of line 185 and
    [st_folium] of line 194 are outside any [try]. *)
Definition run_loaded (search_query : string) (show_table : bool)
    (df : DataFrame) (shown : list message) (lk : Lookup)
  : run_result * Lookup :=
  let v0 := mkVars df DEFAULT_CENTER DEFAULT_ZOOM [] 0
              (map Main shown ++
               [Sidebar (Success ("Loaded " +:+ pretty (length df) +:+ " locations."))])%list in
  let '(v1, lk') := search_step search_query v0 lk in
  match folium_Map (map_center v1) (map_zoom v1) with
  | Raise e => (Crashed e v1, lk')
  | Ok _ =>
      let v2 := plot_step v1 in
      match search_marker_step search_query v2 with
      | Raise e => (Crashed e v2, lk')
      | Ok v3 =>
          match st_folium (map_center v3) (map_zoom v3) (m v3) with
          | Raise e => (Crashed e v3, lk')
          | Ok _ => (Done (render_step show_table v3), lk')
          end
      end
  end.

(** One run of the script: the widgets' values, the file as it is then,
    and the session. *)
Definition run_script (search_query : string) (show_table : bool)
    (file : exc Element) (s : Session) : run_result * Session :=
  let '(loaded, shown, lc) := cached_load FILE_PATH file (load_cache s) in
  match loaded with
  | None =>
      (Stopped (map Main shown ++
                [Sidebar (Error "Failed to load or parse location data from the file." None)])%list,
       mkSession lc (lookup s))
  | Some df =>
      let '(r, lk') := run_loaded search_query show_table df shown (lookup s) in
      (r, mkSession lc lk')
  end.

End Script.

(** The record set a run ends with, when it gets that far. *)
Definition final_data_df (r : run_result) : option DataFrame :=
  match r with
  | Stopped _ => None
  | Crashed _ v | Done v => Some (data_df v)
  end.

(** Runs of the script one after the other in one process, each with the
    values of its widgets and the file as it is then. *)
Fixpoint run_session (geocode : World -> string -> response * N)
    (format_float : nat -> spec_float -> string)
    (folium_Map : Center -> Z -> exc unit)
    (folium_Marker : Center -> option string -> string -> string * string -> exc Marker)
    (st_folium : Center -> Z -> list Marker -> exc unit)
    (inputs : list (string * bool * exc Element)) (s : Session)
  : list run_result * Session :=
  match inputs with
  | [] => ([], s)
  | (search_query, show_table, file) :: rest =>
      let '(r, s1) := run_script geocode format_float folium_Map folium_Marker
                        st_folium search_query show_table file s in
      let '(rs, s2) := run_session geocode format_float folium_Map folium_Marker
                         st_folium rest s1 in
      (r :: rs, s2)
  end.

(** ** Observations used by the further properties *)

(** The [Data] element of cell [i] of a row, if the row has that cell and
    the cell that element. *)
Definition cell_data (i : nat) (row : Element) : option Element :=
  cell ← ET.findall (ss "Cell") row !! i;
  ET.find (ss "Data") cell.

(** The value of [c.text if c is not None else default] for the [Data]
    element [c] of cell [i], in a row that has the cell. *)
Definition field (row : Element) (i : nat) (default : option string)
  : option string :=
  match cell_data i row with
  | Some data => ET.text data
  | None => default
  end.

(** A data row that stops after its film cell. *)
Definition short_row : Element := row_of [data_cell (Some "Manhattan (1979)")].

(** A data row whose borough and neighbourhood cells are blank. *)
Definition sparse_row : Element :=
  row_of ([data_cell (Some "Taxi Driver")] ++ replicate 7 blank_cell ++
          [data_cell (Some "8th Ave &<br>W 47th St"); data_cell (Some "40.7605");
           data_cell (Some "-73.9876"); blank_cell; blank_cell])%list.

(** A data row whose film cell is blank. *)
Definition untitled_row : Element :=
  row_of ([blank_cell] ++ replicate 7 blank_cell ++
          [data_cell (Some "Times Square"); data_cell (Some "40.758");
           data_cell (Some "-73.9855"); data_cell (Some "Manhattan");
           data_cell (Some "Midtown")])%list.

(** A data row whose latitude is two spaces. *)
Definition blank_latitude_row : Element :=
  film_row (Some "Annie Hall") (Some "Coney Island") (Some "  ") (Some "-73.9")
           (Some "Brooklyn") (Some "Coney Island").

(** Requests each sent at least [gap] milliseconds after the one before. *)
Fixpoint spaced (gap : Z) (l : list (Z * string)) : Prop :=
  match l with
  | a :: rest =>
      match rest with
      | b :: _ => a.1 + gap <= b.1
      | [] => True
      end /\ spaced gap rest
  | [] => True
  end.

(** A provider that is out of service, and says so after 50 milliseconds. *)
Definition failing_provider (w : World) (query : string) : response * N :=
  (ServiceFailure, 50%N).

(** The warnings of the plotting loop among the widgets of a page. *)
Definition is_plot_warning (w : widget) : bool :=
  match w with
  | Main (Warning _ _) => true
  | _ => false
  end.

Definition plot_warnings (p : list widget) : nat :=
  length (List.filter is_plot_warning p).

(** The map and the table among the widgets of a page. *)
Definition is_view (w : widget) : bool :=
  match w with
  | MapView _ _ _ | DataTable _ => true
  | Sidebar _ | Main _ => false
  end.

Definition views (p : list widget) : list widget := List.filter is_view p.

(** What the search of a run finds: nothing without a query. *)
Definition search_result (geocode : World -> string -> response * N)
    (search_query : string) (lk : Lookup) : option coords :=
  if String.eqb search_query "" then None
  else (geocode_location geocode search_query lk).1.1.

(** A marker constructor that accepts everything, and one that rejects a
    position that is not a number. *)
Definition any_Marker (c : Center) (p : option string) (t : string)
    (i : string * string) : exc Marker :=
  Ok (mkMarker c p t i).

Definition checked_Marker (c : Center) (p : option string) (t : string)
    (i : string * string) : exc Marker :=
  match c with
  | At (S754_nan, _) | At (_, S754_nan) => Raise ValueError
  | _ => Ok (mkMarker c p t i)
  end.

(** The same for the map and for its display. *)
Definition any_Map (c : Center) (zoom : Z) : exc unit := Ok tt.

Definition checked_Map (c : Center) (zoom : Z) : exc unit :=
  match c with
  | At (S754_nan, _) | At (_, S754_nan) => Raise ValueError
  | _ => Ok tt
  end.

Definition any_st_folium (c : Center) (zoom : Z) (markers : list Marker)
  : exc unit := Ok tt.

(** A data row with a latitude that is not a number, one with an empty
    latitude text and one whose latitude [Data] element has no text, the
    rest being in order. *)
Definition abc_row : Element :=
  film_row (Some "Annie Hall") (Some "Coney Island<br>Brooklyn") (Some "abc")
           (Some "-73.9") (Some "Brooklyn") (Some "Coney Island").

Definition empty_row : Element :=
  film_row (Some "Annie Hall") (Some "Coney Island<br>Brooklyn") (Some "")
           (Some "-73.9") (Some "Brooklyn") (Some "Coney Island").

Definition no_latitude_row : Element :=
  film_row (Some "Annie Hall") (Some "Coney Island<br>Brooklyn") None
           (Some "-73.9") (Some "Brooklyn") (Some "Coney Island").

(** A provider that answers with a position that is not a number. *)
Definition nan_provider (w : World) (query : string) : response * N :=
  (Found S754_nan S754_nan, 120%N).

(** * Properties *)

(** ** The step budgets of [re.sub] and [str.replace] are enough *)

Lemma after_gt_length (s r : string) :
  PyStr.after_gt s = Some r -> (String.length r < String.length s)%nat.
Proof.
  induction s as [|c s IH]; simpl; [done|].
  destruct (Ascii.eqb c ">").
  - intros [= ->]. lia.
  - intros H%IH. lia.
Qed.

Lemma match_tag_length (s r : string) :
  PyStr.match_tag s = Some r -> (String.length r < String.length s)%nat.
Proof.
  destruct s as [|c1 [|c2 s]]; simpl; try done.
  destruct (_ && _); [|done].
  intros H%after_gt_length. lia.
Qed.

Lemma strip_prefix_length (p s r : string) :
  PyStr.strip_prefix p s = Some r ->
  (String.length r + String.length p = String.length s)%nat.
Proof.
  revert s. induction p as [|a p IH]; intros s; simpl.
  - intros [= ->]. lia.
  - destruct s as [|b s]; [done|]. destruct (Ascii.eqb a b); [|done].
    intros H%IH. simpl. lia.
Qed.

(** Any budget of at least the length of the text gives the same result:
    the loops of [re_sub_tag] and [replace] always run to their end. *)
Lemma re_sub_tag_steps_enough (repl : string) (n k : nat) (s : string) :
  (String.length s <= n)%nat -> (String.length s <= k)%nat ->
  PyStr.re_sub_tag_steps n repl s = PyStr.re_sub_tag_steps k repl s.
Proof.
  revert k s. induction n as [|n IH]; intros k s Hn Hk.
  - destruct s; [|simpl in Hn; lia]. by destruct k.
  - destruct k as [|k]; [destruct s; [done|simpl in Hk; lia]|].
    destruct s as [|c r]; [done|].
    cbn [PyStr.re_sub_tag_steps].
    destruct (PyStr.match_tag (String c r)) as [rest|] eqn:Hm.
    + apply match_tag_length in Hm. f_equal. apply IH; lia.
    + simpl in Hn, Hk. f_equal. apply IH; lia.
Qed.

Lemma replace_steps_enough (old new : string) (n k : nat) (s : string) :
  old <> "" ->
  (String.length s <= n)%nat -> (String.length s <= k)%nat ->
  PyStr.replace_steps n old new s = PyStr.replace_steps k old new s.
Proof.
  intros Hold. revert k s. induction n as [|n IH]; intros k s Hn Hk.
  - destruct s; [|simpl in Hn; lia]. by destruct k.
  - destruct k as [|k]; [destruct s; [done|simpl in Hk; lia]|].
    destruct s as [|c r]; [done|].
    cbn [PyStr.replace_steps].
    destruct (PyStr.strip_prefix old (String c r)) as [rest|] eqn:Hm.
    + apply strip_prefix_length in Hm.
      assert (0 < String.length old)%nat by (destruct old; [done|simpl; lia]).
      f_equal. apply IH; lia.
    + simpl in Hn, Hk. f_equal. apply IH; lia.
Qed.

(** ** The extractor, row by row *)

Lemma data_text_cell_text (row : Element) (i : nat) (d : option string) (t : string) :
  cell_text i row = Some t ->
  data_text (ET.findall (ss "Cell") row) i d = Ok (Some t).
Proof.
  unfold cell_text, data_text.
  destruct (ET.findall (ss "Cell") row !! i) as [cell|]; simpl; [|done].
  destruct (ET.find (ss "Data") cell) as [data|]; simpl; [|done].
  by intros ->.
Qed.

Lemma data_text_None_cell_text (row : Element) (i : nat) (x : option string) :
  data_text (ET.findall (ss "Cell") row) i None = Ok x -> cell_text i row = x.
Proof.
  unfold cell_text, data_text.
  destruct (ET.findall (ss "Cell") row !! i) as [cell|]; simpl; [|done].
  destruct (ET.find (ss "Data") cell) as [data|]; simpl; congruence.
Qed.

Lemma data_text_in_range (cells : list Element) (i : nat) (d : option string) :
  (i < length cells)%nat -> exists x, data_text cells i d = Ok x.
Proof.
  intros Hi. unfold data_text.
  destruct (lookup_lt_is_Some_2 cells i Hi) as [cell ->].
  destruct (ET.find (ss "Data") cell); eauto.
Qed.

Lemma float_or_none_Some (s : option string) (x : spec_float) :
  float_or_none s = Ok (Some x) ->
  exists t, s = Some t /\ truthy s = true /\ py_float t = Ok x.
Proof.
  unfold float_or_none. destruct s as [t|]; [|done].
  destruct (truthy (Some t)) eqn:Ht; [|done].
  destruct (py_float t) as [y|] eqn:Hy; simpl; [|done].
  intros [= ->]. eauto.
Qed.

Lemma float_or_none_falsy (s : option string) :
  truthy s = false -> float_or_none s = Ok None.
Proof.
  unfold float_or_none. destruct s as [t|]; [|done]. by intros ->.
Qed.

(** What is known of a row that is appended. *)
Lemma row_body_Some (cells : list Element) (r : LocationRecord) :
  row_body cells = Ok (Some r) ->
  Film r <> Some "N/A" /\
  data_text cells 0 (Some "N/A") = Ok (Film r) /\
  (exists t, data_text cells 8 (Some "") = Ok (Some t) /\
             Location_Display_Text r = clean_location_text t) /\
  (exists lat_str, data_text cells 9 None = Ok (Some lat_str) /\
                   truthy (Some lat_str) = true /\ py_float lat_str = Ok (LATITUDE r)) /\
  (exists lon_str, data_text cells 10 None = Ok (Some lon_str) /\
                   truthy (Some lon_str) = true /\ py_float lon_str = Ok (LONGITUDE r)).
Proof.
  unfold row_body.
  destruct (data_text cells 0 _) as [film|]; simpl; [|done].
  destruct (data_text cells 8 _) as [[t|]|]; simpl; [|done|done].
  destruct (data_text cells 9 _) as [lat_str|]; simpl; [|done].
  destruct (data_text cells 10 _) as [lon_str|]; simpl; [|done].
  destruct (data_text cells 11 _) as [borough|]; simpl; [|done].
  destruct (data_text cells 12 _) as [neighborhood|]; simpl; [|done].
  destruct (float_or_none lat_str) as [[la|]|] eqn:Hla; simpl; [| |done].
  2: { destruct (float_or_none lon_str) as [lon|]; simpl; done. }
  destruct (float_or_none lon_str) as [[lo|]|] eqn:Hlo; simpl; [|done|done].
  case_bool_decide as Hfilm; [|done].
  intros [= <-]; simpl.
  apply float_or_none_Some in Hla as (ta & -> & Hta & Hpa).
  apply float_or_none_Some in Hlo as (to & -> & Hto & Hpo).
  repeat split; eauto.
Qed.

Lemma process_row_Appended (row : Element) (r : LocationRecord) :
  process_row row = Appended r ->
  (13 <= length (ET.findall (ss "Cell") row))%nat /\
  row_body (ET.findall (ss "Cell") row) = Ok (Some r).
Proof.
  unfold process_row.
  destruct (13 <=? length _)%nat eqn:Hlen; [|done].
  apply Nat.leb_le in Hlen.
  destruct (row_body _) as [[r'|]|e]; [| done |destruct (row_except e); done].
  by intros [= ->].
Qed.

(** ** The loop *)

Lemma for_rows_app (rows1 rows2 : list Element) (acc : list LocationRecord) :
  for_rows (rows1 ++ rows2)%list acc =
  exc_bind (for_rows rows1 acc) (for_rows rows2).
Proof.
  revert acc. induction rows1 as [|row rows1 IH]; intros acc; simpl; [done|].
  destruct (process_row row); auto.
Qed.

Lemma for_rows_Ok (rows : list Element) (acc df : list LocationRecord) :
  for_rows rows acc = Ok df -> df = (acc ++ omap appended_record rows)%list.
Proof.
  revert acc. induction rows as [|row rows IH]; intros acc; simpl.
  - intros [= ->]. by rewrite app_nil_r.
  - unfold appended_record at 1.
    destruct (process_row row) as [r| | |e|e]; intros H;
      try (apply IH in H; subst df); try done.
    by rewrite <- app_assoc.
Qed.

(** ** The function as a whole *)

Lemma load_exit_rows (root : Element) (rows : list Element) :
  find_rows root = Some rows ->
  load_and_parse_xml_data_exit (Ok root) =
    if (length rows <=? 3)%nat then NotEnoughRows
    else match for_rows (drop 3 rows) [] with
         | Raise e => ProcessingError e
         | Ok [] => NoLocations
         | Ok df => Loaded df
         end.
Proof.
  unfold find_rows, find_worksheet, load_and_parse_xml_data_exit.
  destruct (List.find _ _) as [ws|]; simpl; [|done].
  destruct (ET.find_desc _ ws) as [table|]; simpl; [|done].
  by intros [= <-].
Qed.

Lemma load_Some (root : Element) (df : DataFrame) :
  load_and_parse_xml_data (Ok root) = Some df ->
  exists rows, find_rows root = Some rows /\ (3 < length rows)%nat /\
               df <> [] /\ for_rows (drop 3 rows) [] = Ok df.
Proof.
  unfold load_and_parse_xml_data. intros H.
  destruct (find_rows root) as [rows|] eqn:Hrows.
  - exists rows. rewrite (load_exit_rows _ _ Hrows) in H.
    destruct (length rows <=? 3)%nat eqn:Hlen; [done|].
    apply Nat.leb_gt in Hlen.
    destruct (for_rows _ _) as [[|r df']|e]; [done| |done].
    injection H as <-. done.
  - exfalso. revert H Hrows.
    unfold find_rows, find_worksheet, load_and_parse_xml_data_exit.
    destruct (List.find _ _) as [ws|]; simpl; [|done].
    destruct (ET.find_desc _ ws) as [table|]; simpl; done.
Qed.

Lemma load_Some_records (root : Element) (df : DataFrame) :
  load_and_parse_xml_data (Ok root) = Some df ->
  exists rows, find_rows root = Some rows /\
               df = omap appended_record (drop 3 rows).
Proof.
  intros (rows & Hrows & _ & _ & Hfor)%load_Some.
  exists rows. split; [done|]. by apply for_rows_Ok in Hfor.
Qed.

Lemma load_of_for_rows (root : Element) (rows : list Element) (df : DataFrame) :
  find_rows root = Some rows ->
  for_rows (drop 3 rows) [] = Ok df -> df <> [] ->
  load_and_parse_xml_data (Ok root) = Some df.
Proof.
  intros Hrows Hfor Hne. unfold load_and_parse_xml_data.
  rewrite (load_exit_rows _ _ Hrows).
  destruct (length rows <=? 3)%nat eqn:Hlen.
  - apply Nat.leb_le in Hlen. rewrite drop_ge in Hfor by done.
    simpl in Hfor. congruence.
  - rewrite Hfor. by destruct df.
Qed.

Lemma for_rows_skip (row : Element) (rest : list Element)
    (acc df : list LocationRecord) :
  appended_record row = None ->
  for_rows (row :: rest) acc = Ok df -> for_rows rest acc = Ok df.
Proof.
  unfold appended_record. simpl. by destruct (process_row row).
Qed.

Lemma truthy_Some (t : string) : truthy (Some t) = true -> t <> "".
Proof. by destruct t. Qed.

(** A row without a usable latitude or longitude text is not appended. *)
Lemma missing_coordinate_not_appended (row : Element) :
  truthy (cell_text 9 row) = false \/ truthy (cell_text 10 row) = false ->
  appended_record row = None.
Proof.
  intros Hmiss. unfold appended_record.
  destruct (process_row row) as [r| | | |] eqn:Hrow; try done.
  apply process_row_Appended in Hrow as [_ Hbody].
  apply row_body_Some in Hbody
    as (_ & _ & _ & (la & Hla & Hta & _) & (lo & Hlo & Hto & _)).
  apply data_text_None_cell_text in Hla, Hlo.
  rewrite Hla, Hlo in Hmiss. destruct Hmiss; congruence.
Qed.

(** A row whose film text is the sentinel is not appended. *)
Lemma film_NA_not_appended (row : Element) :
  cell_text 0 row = Some "N/A" -> appended_record row = None.
Proof.
  intros Hfilm. unfold appended_record.
  destruct (process_row row) as [r| | | |] eqn:Hrow; try done.
  apply process_row_Appended in Hrow as [_ Hbody].
  apply row_body_Some in Hbody as (Hne & Hf & _).
  rewrite (data_text_cell_text row 0 _ _ Hfilm) in Hf. congruence.
Qed.

Lemma omap_sublist {A B : Type} (f : A -> option B) (l : list A) :
  exists kept, kept `sublist_of` l /\ Forall2 (fun x y => f x = Some y) kept (omap f l).
Proof.
  induction l as [|x l (kept & Hsub & Hall)]; simpl.
  - exists []. split; constructor.
  - destruct (f x) as [y|] eqn:Hx.
    + exists (x :: kept). split; [by constructor | by constructor].
    + exists kept. split; [by constructor | done].
Qed.

Lemma find_worksheet_None (root : Element) :
  Forall (fun ws => ET.get (ss "Name") ws <> Some "Full Map List")
         (ET.findall_desc (ss "Worksheet") root) ->
  find_worksheet root = None.
Proof.
  unfold find_worksheet.
  induction 1 as [|ws l Hws _ IH]; simpl; [done|].
  unfold is_full_map_list at 1. by rewrite bool_decide_eq_false_2.
Qed.

Lemma float_of_40_7 :
  float_or_none (Some "40.7") = Ok (Some (S754_finite false 5728015776061850 (-47))).
Proof. vm_compute. reflexivity. Qed.

Lemma float_of_minus_74 :
  float_or_none (Some "-74.0") = Ok (Some (S754_finite true 5207287069147136 (-46))).
Proof. vm_compute. reflexivity. Qed.

Lemma clean_central_park :
  clean_location_text "55 Central Park W<br>Manhattan" = "55 Central Park W, Manhattan".
Proof. vm_compute. reflexivity. Qed.

(** ** The script leaves [data_df] alone *)

Section ScriptFrame.
Variable geocode : World -> string -> response * N.
Variable format_float : nat -> spec_float -> string.
Variable folium_Map : Center -> Z -> exc unit.
Variable folium_Marker :
  Center -> option string -> string -> string * string -> exc Marker.
Variable st_folium : Center -> Z -> list Marker -> exc unit.

Lemma show_all_data_df (shown : list message) (v : Vars) :
  data_df (fold_left (fun acc msg => show (Sidebar msg) acc) shown v) = data_df v.
Proof.
  revert v. induction shown as [|msg shown IH]; intros v; simpl; [done|].
  by rewrite IH.
Qed.

Lemma search_step_data_df (q : string) (v : Vars) (lk : Lookup) :
  data_df (search_step geocode format_float q v lk).1 = data_df v.
Proof.
  unfold search_step. destruct (String.eqb q ""); [done|].
  destruct (geocode_location geocode q lk) as [[[c|] shown] lk']; simpl;
    apply show_all_data_df.
Qed.

Lemma plot_rows_data_df (rows : list LocationRecord) (idx : nat) (v : Vars) :
  data_df (plot_rows format_float folium_Marker idx rows v) = data_df v.
Proof.
  revert idx v. induction rows as [|row rows IH]; intros idx v; simpl; [done|].
  rewrite IH. unfold plot_row. by destruct (folium_Marker _ _ _ _).
Qed.

Lemma plot_step_data_df (v : Vars) :
  data_df (plot_step format_float folium_Marker v) = data_df v.
Proof. unfold plot_step. simpl. by rewrite plot_rows_data_df. Qed.

Lemma search_marker_step_data_df (q : string) (v v' : Vars) :
  search_marker_step folium_Marker q v = Ok v' -> data_df v' = data_df v.
Proof.
  unfold search_marker_step. destruct (map_center v); [by intros [= <-]|].
  destruct (String.eqb q ""); [by intros [= <-]|].
  destruct (folium_Marker _ _ _ _); simpl; [|done]. by intros [= <-].
Qed.

Lemma render_step_data_df (show_table : bool) (v : Vars) :
  data_df (render_step show_table v) = data_df v.
Proof. unfold render_step. by destruct show_table. Qed.

Lemma run_loaded_data_df (q : string) (show_table : bool) (df : DataFrame)
    (shown : list message) (lk : Lookup) :
  final_data_df (run_loaded geocode format_float folium_Map folium_Marker st_folium
                   q show_table df shown lk).1
  = Some df.
Proof.
  unfold run_loaded.
  pose proof (search_step_data_df q
    (mkVars df DEFAULT_CENTER DEFAULT_ZOOM [] 0
       (map Main shown ++
        [Sidebar (Success ("Loaded " +:+ pretty (length df) +:+ " locations."))])%list)
    lk) as Hs.
  destruct (search_step _ _ _ _ _) as [v1 lk']. simpl in Hs.
  destruct (folium_Map _ _) as [[]|e0]; cbn [fst final_data_df]; [|congruence].
  pose proof (plot_step_data_df v1) as Hp.
  destruct (search_marker_step _ _ _) as [v3|e] eqn:Hm; cbn [fst final_data_df].
  - apply search_marker_step_data_df in Hm.
    destruct (st_folium _ _ _) as [[]|e1]; cbn [fst final_data_df].
    + rewrite render_step_data_df. congruence.
    + congruence.
  - congruence.
Qed.

(** A run that finds the record set in the cache ends with that set,
    and leaves it in the cache. *)
Lemma run_script_cached (q : string) (show_table : bool) (file : exc Element)
    (s : Session) (df : DataFrame) (shown : list message) :
  load_cache s !! FILE_PATH = Some (Some df, shown) ->
  final_data_df (run_script geocode format_float folium_Map folium_Marker st_folium
                   q show_table file s).1
    = Some df /\
  load_cache (run_script geocode format_float folium_Map folium_Marker st_folium
                q show_table file s).2
    !! FILE_PATH = Some (Some df, shown).
Proof.
  intros Hc. unfold run_script, cached_load. rewrite Hc.
  pose proof (run_loaded_data_df q show_table df shown (lookup s)) as Hr.
  destruct (run_loaded _ _ _ _ _ _ _ _ _ _) as [r lk']. done.
Qed.

Lemma load_Some_shows_nothing (file : exc Element) (df : DataFrame) :
  load_and_parse_xml_data file = Some df ->
  load_and_parse_xml_data_shown file = [].
Proof.
  unfold load_and_parse_xml_data, load_and_parse_xml_data_shown.
  by destruct (load_and_parse_xml_data_exit file).
Qed.

(** The first run computes the record set and stores it. *)
Lemma run_script_first (q : string) (show_table : bool) (file : exc Element)
    (s : Session) (df : DataFrame) :
  load_cache s !! FILE_PATH = None ->
  load_and_parse_xml_data file = Some df ->
  final_data_df (run_script geocode format_float folium_Map folium_Marker st_folium
                   q show_table file s).1
    = Some df /\
  load_cache (run_script geocode format_float folium_Map folium_Marker st_folium
                q show_table file s).2
    !! FILE_PATH = Some (Some df, []).
Proof.
  intros Hc Hl. unfold run_script, cached_load.
  rewrite Hc, Hl, (load_Some_shows_nothing _ _ Hl).
  pose proof (run_loaded_data_df q show_table df [] (lookup s)) as Hr.
  destruct (run_loaded _ _ _ _ _ _ _ _ _ _) as [r lk']. simpl.
  by rewrite lookup_insert_eq.
Qed.

Lemma run_session_cached (inputs : list (string * bool * exc Element))
    (s : Session) (df : DataFrame) (shown : list message) :
  load_cache s !! FILE_PATH = Some (Some df, shown) ->
  Forall (fun r => final_data_df r = Some df)
         (run_session geocode format_float folium_Map folium_Marker st_folium
            inputs s).1 /\
  load_cache (run_session geocode format_float folium_Map folium_Marker st_folium
                inputs s).2
    !! FILE_PATH = Some (Some df, shown).
Proof.
  revert s. induction inputs as [|[[q show_table] file] inputs IH]; intros s Hc.
  - simpl. split; [constructor|done].
  - simpl.
    destruct (run_script_cached q show_table file s df shown Hc) as [Hr Hc1].
    destruct (run_script _ _ _ _ _ _ _ _ _) as [r s1]. simpl in Hr, Hc1.
    destruct (IH s1 Hc1) as [Hrs Hc2].
    destruct (run_session _ _ _ _ _ _ _) as [rs s2]. simpl in *.
    split; [by constructor|done].
Qed.

End ScriptFrame.

(** ** The lookup *)

Section LookupFacts.
Variable geocode : World -> string -> response * N.

Lemma acquire_requests (rl : RateLimiter.t) (w : World) :
  requests (RateLimiter.acquire_request_slot rl w).2 = requests w.
Proof.
  unfold RateLimiter.acquire_request_slot.
  destruct (RateLimiter.last_call rl); [destruct (_ <=? 0)|]; done.
Qed.

(** A call through a limiter only adds requests. *)
Lemma call_requests_grow (n : nat) (rl : RateLimiter.t) (q : string) (w : World) :
  exists more,
    requests (RateLimiter.call geocode n rl q w).2 = (requests w ++ more)%list.
Proof.
  revert rl w. induction n as [|n IH]; intros rl w; simpl;
    pose proof (acquire_requests rl w) as Hw1;
    destruct (RateLimiter.acquire_request_slot rl w) as [rl1 w1];
    simpl in Hw1; unfold RateLimiter.send;
    destruct (geocode w1 q) as [r took]; destruct r; simpl;
    try (rewrite Hw1; by eauto).
  destruct (IH rl1 (sleep (RateLimiter.error_wait rl1)
                      (mkWorld (now w1 + Z.of_N took)
                               (requests w1 ++ [(now w1, q)])%list))) as [more Hm].
  rewrite Hm. simpl. rewrite Hw1, <- app_assoc. eauto.
Qed.

(** A limiter without a last call sends its first request at once: at
    the time of the call, whenever the request before it was sent. *)
Lemma call_first_request (n : nat) (rl : RateLimiter.t) (q : string) (w : World) :
  RateLimiter.last_call rl = None ->
  exists more,
    requests (RateLimiter.call geocode n rl q w).2
    = (requests w ++ (now w, q) :: more)%list.
Proof.
  intros Hlast.
  destruct n as [|n]; simpl; unfold RateLimiter.acquire_request_slot;
    rewrite Hlast; unfold RateLimiter.send;
    destruct (geocode w q) as [r took]; destruct r; simpl;
    try (by exists []).
  match goal with
  | |- context [RateLimiter.call geocode n ?rl' q ?w'] =>
      destruct (call_requests_grow n rl' q w') as [more Hm]
  end.
  rewrite Hm. simpl. rewrite <- app_assoc. eauto.
Qed.

Lemma new_limiter_does_not_wait (q : string) (w : World) :
  exists more,
    requests (RateLimiter.run geocode (RateLimiter.new 1) q w).2
    = (requests w ++ (now w, q) :: more)%list.
Proof. unfold RateLimiter.run. by apply call_first_request. Qed.

Lemma body_sends_at_once (q : string) (w : World) :
  q <> "" ->
  exists more,
    requests (geocode_location_body geocode q w).2
    = (requests w ++ (now w, q) :: more)%list.
Proof.
  intros Hq. unfold geocode_location_body.
  destruct (String.eqb_spec q ""); [done|].
  destruct (new_limiter_does_not_wait q w) as [more Hm].
  destruct (RateLimiter.run _ _ _ _) as [[location rl] w'].
  exists more. simpl in Hm. by destruct location as [[c|]|e].
Qed.

(** A lookup that is not served from the cache sends its request at
    the time it is called, however recent the request before it. *)
Lemma lookup_not_delayed (q : string) (st : Lookup) :
  q <> "" -> cache st !! q = None ->
  exists more,
    requests (world (geocode_location geocode q st).2)
    = (requests (world st) ++ (now (world st), q) :: more)%list.
Proof.
  intros Hq Hc. unfold geocode_location. rewrite Hc.
  destruct (body_sends_at_once q (world st) Hq) as [more Hm].
  destruct (geocode_location_body _ _ _) as [[outcome shown] w'].
  by exists more.
Qed.

(** An entry of the cache is never replaced. *)
Lemma cache_kept (q q' : string) (st : Lookup) x :
  cache st !! q = Some x ->
  cache (geocode_location geocode q' st).2 !! q = Some x.
Proof.
  intros Hq. unfold geocode_location.
  destruct (cache st !! q') as [[outcome shown]|] eqn:Hq'; [done|].
  destruct (geocode_location_body _ _ _) as [[outcome shown] w']. simpl.
  rewrite lookup_insert_ne; [done|]. congruence.
Qed.

Lemma cache_kept_lookups (qs : list string) (q : string) (st : Lookup) x :
  cache st !! q = Some x -> cache (lookups geocode qs st) !! q = Some x.
Proof.
  revert st. induction qs as [|q' qs IH]; intros st Hq; simpl; [done|].
  by apply IH, cache_kept.
Qed.

Lemma cache_after_lookup (q : string) (st : Lookup) :
  cache (geocode_location geocode q st).2 !! q
  = Some ((geocode_location geocode q st).1.1, (geocode_location geocode q st).1.2).
Proof.
  unfold geocode_location.
  destruct (cache st !! q) as [[outcome shown]|] eqn:Hq; [done|].
  destruct (geocode_location_body _ _ _) as [[outcome shown] w']. simpl.
  by rewrite lookup_insert_eq.
Qed.

Lemma empty_query_inv_step (q : string) (st : Lookup) :
  empty_query_inv st -> empty_query_inv (geocode_location geocode q st).2.
Proof.
  intros Hinv. unfold geocode_location.
  destruct (cache st !! q) as [[outcome shown]|] eqn:Hq; [done|].
  destruct (String.eqb_spec q "") as [->|Hne].
  - right. unfold geocode_location_body. simpl. by rewrite lookup_insert_eq.
  - destruct (geocode_location_body _ _ _) as [[outcome shown] w']. simpl.
    unfold empty_query_inv. simpl. by rewrite lookup_insert_ne.
Qed.

Lemma empty_query_inv_lookups (qs : list string) (st : Lookup) :
  empty_query_inv st -> empty_query_inv (lookups geocode qs st).
Proof.
  revert st. induction qs as [|q qs IH]; intros st Hinv; simpl; [done|].
  by apply IH, empty_query_inv_step.
Qed.

End LookupFacts.

(** ** Claims *)

(** C1, as the specification has it, fails: the record of [overflow_row]
    has an infinite latitude and a longitude that is not a number. *)
Lemma C1_counterexample :
  ~ (forall (root : Element) (df : DataFrame) (r : LocationRecord),
        load_and_parse_xml_data (Ok root) = Some df -> r ∈ df ->
        Film r <> Some "N/A" /\
        PyFloat.is_finite (LATITUDE r) = true /\
        PyFloat.is_finite (LONGITUDE r) = true).
Proof.
  intros H.
  specialize (H (workbook "Full Map List" (header_rows ++ [overflow_row])%list)
                [mkLocation (Some "Ghostbusters") "55 Central Park W"
                            (S754_infinity false) S754_nan
                            (Some "Manhattan") (Some "Upper West Side")]
                _ eq_refl (list_elem_of_here _ _)).
  destruct H as (_ & Hlat & _). discriminate Hlat.
Qed.

(** C1, amended: every record of the result has a film other than the
    sentinel ['N/A'] and comes from a data row whose latitude and longitude
    texts are not empty, its coordinates being the values [float] gives for
    them (values that may be infinite or not a number); a row missing
    either coordinate is discarded. *)
Theorem C1_records_have_film_and_coordinates :
  (forall (root : Element) (df : DataFrame) (r : LocationRecord),
      load_and_parse_xml_data (Ok root) = Some df -> r ∈ df ->
      Film r <> Some "N/A" /\
      exists rows row lat_str lon_str,
        find_rows root = Some rows /\ row ∈ drop 3 rows /\
        process_row row = Appended r /\
        cell_text 9 row = Some lat_str /\ lat_str <> "" /\
        py_float lat_str = Ok (LATITUDE r) /\
        cell_text 10 row = Some lon_str /\ lon_str <> "" /\
        py_float lon_str = Ok (LONGITUDE r)) /\
  (forall (row : Element),
      truthy (cell_text 9 row) = false \/ truthy (cell_text 10 row) = false ->
      forall r, process_row row <> Appended r).
Proof.
  split.
  - intros root df r (rows & Hrows & ->)%load_Some_records Hin.
    apply list_elem_of_omap in Hin as (row & Hrow & Happ).
    unfold appended_record in Happ.
    destruct (process_row row) as [r'| | | |] eqn:Hp; try done.
    injection Happ as ->.
    destruct (process_row_Appended _ _ Hp) as [_ Hbody].
    apply row_body_Some in Hbody
      as (Hne & _ & _ & (la & Hla & Hta & Hpa) & (lo & Hlo & Hto & Hpo)).
    split; [done|].
    exists rows, row, la, lo.
    apply data_text_None_cell_text in Hla, Hlo.
    apply truthy_Some in Hta, Hto. done.
  - intros row Hmiss r Hp.
    apply missing_coordinate_not_appended in Hmiss.
    unfold appended_record in Hmiss. by rewrite Hp in Hmiss.
Qed.

Lemma C1_records_have_film_and_coordinates_witness :
  (Film (mkLocation (Some "Ghostbusters") "55 Central Park W, Manhattan"
                    (S754_finite false 5728015776061850 (-47))
                    (S754_finite true 5207287069147136 (-46))
                    (Some "Manhattan") (Some "Upper West Side")) <> Some "N/A") /\
  (forall r, process_row (film_row (Some "Ghostbusters") (Some "55 Central Park W")
                                   None (Some "-74.0") None None) <> Appended r).
Proof.
  split.
  - exact (proj1 (proj1 C1_records_have_film_and_coordinates
             (workbook "Full Map List" (header_rows ++ [ghostbusters_row])%list)
             _ _ eq_refl (list_elem_of_here _ _))).
  - apply (proj2 C1_records_have_film_and_coordinates). left. reflexivity.
Defined.

(** C4: the two cleaning examples, and the end-to-end example for every
    document whose table has four rows, the fourth a valid data row with
    film [Ghostbusters], latitude [40.7], longitude [-74.0] and location
    [55 Central Park W<br>Manhattan]: extraction yields exactly one record,
    whose display text is [55 Central Park W, Manhattan]. *)
Theorem C4_cleaning_and_end_to_end :
  clean_location_text "Main St<br>Suite 4" = "Main St, Suite 4" /\
  clean_location_text ",Main St," = "Main St" /\
  forall (root h1 h2 h3 row : Element),
    find_rows root = Some [h1; h2; h3; row] ->
    (13 <= length (ET.findall (ss "Cell") row))%nat ->
    cell_text 0 row = Some "Ghostbusters" ->
    cell_text 8 row = Some "55 Central Park W<br>Manhattan" ->
    cell_text 9 row = Some "40.7" ->
    cell_text 10 row = Some "-74.0" ->
    exists r,
      load_and_parse_xml_data (Ok root) = Some [r] /\
      Film r = Some "Ghostbusters" /\
      Location_Display_Text r = "55 Central Park W, Manhattan" /\
      LATITUDE r = S754_finite false 5728015776061850 (-47) /\
      LONGITUDE r = S754_finite true 5207287069147136 (-46).
Proof.
  split; [by vm_compute|]. split; [by vm_compute|].
  intros root h1 h2 h3 row Hrows Hlen Hfilm Hloc Hlat Hlon.
  destruct (data_text_in_range (ET.findall (ss "Cell") row) 11 (Some "N/A"))
    as [borough Hb]; [lia|].
  destruct (data_text_in_range (ET.findall (ss "Cell") row) 12 (Some "N/A"))
    as [neighborhood Hn]; [lia|].
  eexists. split.
  - apply (load_of_for_rows _ _ _ Hrows); [|discriminate].
    simpl. unfold process_row, row_body.
    rewrite (proj2 (Nat.leb_le _ _) Hlen).
    rewrite (data_text_cell_text _ 0 _ _ Hfilm), (data_text_cell_text _ 8 _ _ Hloc),
      (data_text_cell_text _ 9 _ _ Hlat), (data_text_cell_text _ 10 _ _ Hlon), Hb, Hn.
    cbn [exc_bind].
    rewrite float_of_40_7, float_of_minus_74, clean_central_park.
    cbn [exc_bind]. rewrite bool_decide_eq_true_2 by discriminate.
    reflexivity.
  - done.
Qed.

Lemma C4_cleaning_and_end_to_end_witness :
  exists r,
    load_and_parse_xml_data
      (Ok (workbook "Full Map List" (header_rows ++ [ghostbusters_row])%list)) = Some [r] /\
    Film r = Some "Ghostbusters" /\
    Location_Display_Text r = "55 Central Park W, Manhattan" /\
    LATITUDE r = S754_finite false 5728015776061850 (-47) /\
    LONGITUDE r = S754_finite true 5207287069147136 (-46).
Proof.
  apply (proj2 (proj2 C4_cleaning_and_end_to_end)
           (workbook "Full Map List" (header_rows ++ [ghostbusters_row])%list)
           (row_of [data_cell (Some "Film locations")]) (row_of [])
           (row_of [data_cell (Some "Film")]) ghostbusters_row);
    reflexivity.
Defined.

(** A row whose location cell holds an empty [Data] element ends the
    extraction, whatever its latitude: [re.sub] raises a [TypeError],
    which line 76 does not catch, and the function returns [None] through
    the handler of line 84, where the document without that row yields
    its record. *)
Lemma empty_location_aborts_extraction :
  load_and_parse_xml_data_exit
    (Ok (workbook "Full Map List"
           (header_rows ++ [abc_latitude_row; ghostbusters_row])%list))
  = ProcessingError TypeError /\
  load_and_parse_xml_data_exit
    (Ok (workbook "Full Map List"
           (header_rows ++ [empty_latitude_row; ghostbusters_row])%list))
  = ProcessingError TypeError /\
  load_and_parse_xml_data
    (Ok (workbook "Full Map List"
           (header_rows ++ [abc_latitude_row; ghostbusters_row])%list)) = None /\
  is_Some (load_and_parse_xml_data
             (Ok (workbook "Full Map List" (header_rows ++ [ghostbusters_row])%list))).
Proof.
  repeat split; try (vm_compute; reflexivity).
  vm_compute. eauto.
Qed.

(** The two latitude paths on their own, for a row of thirteen cells or
    more whose location cell can be cleaned: an empty or absent text is no
    coordinate and the row is passed over at line 67 or skipped for its
    longitude; a text such as [abc] raises [ValueError], caught at
    line 76. *)
Lemma latitude_paths (row : Element) (t : string) :
  (13 <= length (ET.findall (ss "Cell") row))%nat ->
  data_text (ET.findall (ss "Cell") row) 8 (Some "") = Ok (Some t) ->
  (truthy (cell_text 9 row) = false ->
     process_row row = NotAppended \/ process_row row = Skipped ValueError) /\
  (cell_text 9 row = Some "abc" -> process_row row = Skipped ValueError).
Proof.
  intros Hlen Hloc.
  set (cells := ET.findall (ss "Cell") row) in *.
  destruct (data_text_in_range cells 0 (Some "N/A")) as [film Hf]; [lia|].
  destruct (data_text_in_range cells 9 None) as [lat_str Hla]; [lia|].
  destruct (data_text_in_range cells 10 None) as [lon_str Hlo]; [lia|].
  destruct (data_text_in_range cells 11 (Some "N/A")) as [b Hb]; [lia|].
  destruct (data_text_in_range cells 12 (Some "N/A")) as [n Hn]; [lia|].
  pose proof (data_text_None_cell_text row 9 _ Hla) as Hc.
  unfold process_row, row_body. fold cells.
  rewrite (proj2 (Nat.leb_le _ _) Hlen), Hf, Hloc, Hla, Hlo, Hb, Hn.
  cbn [exc_bind]. split.
  - rewrite Hc. intros Hfalsy. rewrite (float_or_none_falsy _ Hfalsy).
    cbn [exc_bind].
    unfold float_or_none. destruct lon_str as [lo|]; [|by left].
    destruct (truthy (Some lo)); [|by left].
    unfold py_float. destruct (PyFloat.float_of_string lo); [by left|by right].
  - rewrite Hc. intros ->. reflexivity.
Qed.

(** C10: a data row whose film cell holds exactly the text [N/A] is never
    appended, whatever its coordinates, and the result of a document is
    the result of the document without that row. *)
Theorem C10_film_NA_row_excluded (row : Element) :
  cell_text 0 row = Some "N/A" ->
  (forall r, process_row row <> Appended r) /\
  (forall (root root' : Element) (pre post : list Element) (df : DataFrame),
      find_rows root = Some (pre ++ row :: post)%list ->
      find_rows root' = Some (pre ++ post)%list ->
      (3 <= length pre)%nat ->
      load_and_parse_xml_data (Ok root) = Some df ->
      load_and_parse_xml_data (Ok root') = Some df).
Proof.
  intros Hfilm. pose proof (film_NA_not_appended _ Hfilm) as Hna. split.
  - intros r Hr. unfold appended_record in Hna. by rewrite Hr in Hna.
  - intros root root' pre post df Hrows Hrows' Hpre
      (rows & Hrows2 & _ & Hne & Hfor)%load_Some.
    rewrite Hrows in Hrows2. injection Hrows2 as <-.
    apply (load_of_for_rows _ _ _ Hrows'); [|done].
    rewrite drop_app_le in Hfor |- * by done.
    rewrite for_rows_app in Hfor |- *.
    destruct (for_rows (drop 3 pre) []) as [acc|e]; simpl in *; [|done].
    by apply for_rows_skip in Hfor.
Qed.

Lemma C10_film_NA_row_excluded_witness :
  (forall r, process_row na_row <> Appended r) /\
  load_and_parse_xml_data
    (Ok (workbook "Full Map List" (header_rows ++ [ghostbusters_row])%list))
  = load_and_parse_xml_data
      (Ok (workbook "Full Map List" (header_rows ++ [na_row; ghostbusters_row])%list)).
Proof.
  destruct (C10_film_NA_row_excluded na_row eq_refl) as [Hrow Hdoc].
  split; [exact Hrow|].
  exact (Hdoc (workbook "Full Map List" (header_rows ++ [na_row; ghostbusters_row])%list)
              (workbook "Full Map List" (header_rows ++ [ghostbusters_row])%list)
              header_rows [ghostbusters_row] _ eq_refl eq_refl (le_n 3) eq_refl).
Defined.

(** C7: when no worksheet of the document is named [Full Map List], or the
    worksheet found holds no table, the function returns through line 32
    or line 35, the [MissingSection] condition, with [None] and without an
    exception; the script then reports the failure and stops. *)
Theorem C7_missing_section (root : Element) :
  Forall (fun ws => ET.get (ss "Name") ws <> Some "Full Map List")
         (ET.findall_desc (ss "Worksheet") root) \/
  (exists ws, find_worksheet root = Some ws /\
              ET.findall_desc (ss "Table") ws = []) ->
  MissingSection (load_and_parse_xml_data_exit (Ok root)) /\
  load_and_parse_xml_data (Ok root) = None /\
  forall geocode format_float folium_Map folium_Marker st_folium
         search_query show_table s,
    load_cache s !! FILE_PATH = None ->
    (run_script geocode format_float folium_Map folium_Marker st_folium
       search_query show_table (Ok root) s).1
    = Stopped [Sidebar (Error "Failed to load or parse location data from the file." None)].
Proof.
  intros H.
  assert (Hexit : MissingSection (load_and_parse_xml_data_exit (Ok root))).
  { unfold MissingSection, load_and_parse_xml_data_exit.
    destruct H as [Hnone | (ws & Hws & Htable)].
    - apply find_worksheet_None in Hnone. unfold find_worksheet in Hnone.
      rewrite Hnone. by left.
    - unfold find_worksheet in Hws. rewrite Hws.
      unfold ET.find_desc. rewrite Htable. by right. }
  assert (Hload : load_and_parse_xml_data (Ok root) = None).
  { unfold load_and_parse_xml_data. by destruct Hexit as [-> | ->]. }
  repeat split; [done..|].
  intros geocode format_float folium_Map folium_Marker st_folium
    search_query show_table s Hc.
  assert (Hshown : load_and_parse_xml_data_shown (Ok root) = []).
  { unfold load_and_parse_xml_data_shown. by destruct Hexit as [-> | ->]. }
  unfold run_script, cached_load. by rewrite Hc, Hload, Hshown.
Qed.

Lemma C7_missing_section_witness :
  MissingSection
    (load_and_parse_xml_data_exit
       (Ok (workbook "Sheet1" (header_rows ++ [ghostbusters_row])%list))) /\
  load_and_parse_xml_data
    (Ok (workbook "Sheet1" (header_rows ++ [ghostbusters_row])%list)) = None.
Proof.
  destruct (C7_missing_section
              (workbook "Sheet1" (header_rows ++ [ghostbusters_row])%list))
    as (Hexit & Hload & _).
  - left. repeat constructor. vm_compute. discriminate.
  - split; [exact Hexit | exact Hload].
Defined.

(** C8: the first three rows of the table are skipped whatever they hold
    (the result is made of the rows after them, and two documents that
    agree after their first three rows end alike), and a document with
    the worksheet and three rows or fewer ends in [EmptyResult]. *)
Theorem C8_header_rows_skipped (root : Element) (rows : list Element) :
  find_rows root = Some rows ->
  ((length rows <= 3)%nat ->
     EmptyResult (load_and_parse_xml_data_exit (Ok root)) /\
     load_and_parse_xml_data (Ok root) = None) /\
  (forall df, load_and_parse_xml_data (Ok root) = Some df ->
              df = omap appended_record (drop 3 rows)) /\
  (forall root' rows',
      find_rows root' = Some rows' -> drop 3 rows' = drop 3 rows ->
      load_and_parse_xml_data_exit (Ok root')
      = load_and_parse_xml_data_exit (Ok root)).
Proof.
  intros Hrows. repeat split.
  - unfold EmptyResult. rewrite (load_exit_rows _ _ Hrows).
    rewrite (proj2 (Nat.leb_le _ _) H). by left.
  - unfold load_and_parse_xml_data. rewrite (load_exit_rows _ _ Hrows).
    by rewrite (proj2 (Nat.leb_le _ _) H).
  - intros df (rows2 & Hrows2 & ->)%load_Some_records. congruence.
  - intros root' rows' Hrows' Hdrop.
    rewrite (load_exit_rows _ _ Hrows), (load_exit_rows _ _ Hrows'), Hdrop.
    assert (Hlen : length (drop 3 rows') = length (drop 3 rows)) by by rewrite Hdrop.
    rewrite !length_drop in Hlen.
    destruct (Nat.leb_spec (length rows) 3), (Nat.leb_spec (length rows') 3);
      try done; lia.
Qed.

Lemma C8_header_rows_skipped_witness :
  EmptyResult (load_and_parse_xml_data_exit (Ok (workbook "Full Map List" header_rows))) /\
  load_and_parse_xml_data (Ok (workbook "Full Map List" header_rows)) = None.
Proof.
  apply (proj1 (C8_header_rows_skipped (workbook "Full Map List" header_rows)
                  header_rows eq_refl)).
  vm_compute. lia.
Defined.

(** C9: the records of the result are those of the rows after the third
    that append one, in the order of the rows; and every run of the
    script, whatever is searched, plotted or displayed, ends with the
    record set it started from, which later runs take unchanged from the
    cache. *)
Theorem C9_order_and_immutability :
  (forall (root : Element) (df : DataFrame),
      load_and_parse_xml_data (Ok root) = Some df ->
      exists rows kept,
        find_rows root = Some rows /\
        kept `sublist_of` drop 3 rows /\
        Forall2 (fun row r => process_row row = Appended r) kept df /\
        df = omap appended_record (drop 3 rows)) /\
  (forall geocode format_float folium_Map folium_Marker st_folium
          search_query show_table
          (file : exc Element) (s : Session) (df : DataFrame),
      load_cache s !! FILE_PATH = None ->
      load_and_parse_xml_data file = Some df ->
      final_data_df
        (run_script geocode format_float folium_Map folium_Marker st_folium
           search_query show_table file s).1
      = Some df /\
      load_cache
        (run_script geocode format_float folium_Map folium_Marker st_folium
           search_query show_table file s).2
        !! FILE_PATH = Some (Some df, [])) /\
  (forall geocode format_float folium_Map folium_Marker st_folium
          (inputs : list (string * bool * exc Element)) (s : Session)
          (df : DataFrame) (shown : list message),
      load_cache s !! FILE_PATH = Some (Some df, shown) ->
      Forall (fun r => final_data_df r = Some df)
             (run_session geocode format_float folium_Map folium_Marker st_folium
                inputs s).1 /\
      load_cache (run_session geocode format_float folium_Map folium_Marker st_folium
                    inputs s).2
        !! FILE_PATH = Some (Some df, shown)).
Proof.
  split; [|split].
  - intros root df (rows & Hrows & ->)%load_Some_records.
    destruct (omap_sublist appended_record (drop 3 rows)) as (kept & Hsub & Hall).
    exists rows, kept. repeat split; try done.
    eapply Forall2_impl; [exact Hall|].
    intros row r. unfold appended_record.
    destruct (process_row row); congruence.
  - intros. by apply run_script_first.
  - intros. by apply run_session_cached.
Qed.

Lemma C9_order_and_immutability_witness :
  (exists rows kept,
      find_rows (workbook "Full Map List"
                   (header_rows ++ [na_row; ghostbusters_row])%list) = Some rows /\
      kept `sublist_of` drop 3 rows /\
      Forall2 (fun row r => process_row row = Appended r) kept
        [mkLocation (Some "Ghostbusters") "55 Central Park W, Manhattan"
                    (S754_finite false 5728015776061850 (-47))
                    (S754_finite true 5207287069147136 (-46))
                    (Some "Manhattan") (Some "Upper West Side")] /\
      [mkLocation (Some "Ghostbusters") "55 Central Park W, Manhattan"
                  (S754_finite false 5728015776061850 (-47))
                  (S754_finite true 5207287069147136 (-46))
                  (Some "Manhattan") (Some "Upper West Side")]
      = omap appended_record (drop 3 rows)) /\
  final_data_df
    (run_script quick_provider (fun _ _ => "0.0") (fun _ _ => Ok tt)
                (fun c p t i => Ok (mkMarker c p t i)) (fun _ _ _ => Ok tt)
                "Manhattan" true
                (Ok (workbook "Full Map List" (header_rows ++ [ghostbusters_row])%list))
                (mkSession ∅ fresh)).1
  = Some [mkLocation (Some "Ghostbusters") "55 Central Park W, Manhattan"
                     (S754_finite false 5728015776061850 (-47))
                     (S754_finite true 5207287069147136 (-46))
                     (Some "Manhattan") (Some "Upper West Side")].
Proof.
  split.
  - exact (proj1 C9_order_and_immutability
             (workbook "Full Map List" (header_rows ++ [na_row; ghostbusters_row])%list)
             _ eq_refl).
  - exact (proj1 (proj1 (proj2 C9_order_and_immutability)
             quick_provider (fun _ _ => "0.0") (fun _ _ => Ok tt)
             (fun c p t i => Ok (mkMarker c p t i)) (fun _ _ _ => Ok tt)
             "Manhattan" true
             (Ok (workbook "Full Map List" (header_rows ++ [ghostbusters_row])%list))
             (mkSession ∅ fresh) _ eq_refl eq_refl)).
Defined.

(** C2 at a failing input: two lookups in a row for two different places,
    the provider answering in 120 milliseconds. Each call of
    [geocode_location] makes a limiter of its own, which has no last call
    to wait for, so the second request leaves 120 milliseconds after the
    first and not a second after it. *)
Theorem C2_consecutive_lookups_not_spaced :
  requests (world (lookups quick_provider ["Paris"; "London"] fresh))
  = [(0, "Paris"); (120, "London")].
Proof. vm_compute. reflexivity. Qed.

(** C3, as the specification has it, fails: a query of one space is sent
    to the provider, and its answer returned. *)
Lemma C3_counterexample :
  ~ (forall (geocode : World -> string -> response * N) (query : string) (st : Lookup),
        Forall (fun c => is_whitespace c = true) (list_ascii_of_string query) ->
        (geocode_location geocode query st).1.1 = None /\
        requests (world (geocode_location geocode query st).2) = requests (world st)).
Proof.
  intros H.
  destruct (H quick_provider " " fresh) as [Hnone _].
  - repeat constructor.
  - vm_compute in Hnone. discriminate Hnone.
Qed.

(** C3, amended: for the empty query, in every state the lookups of a
    process can lead to, the lookup returns "no result" at once, sending
    no request and leaving the clock where it is. (A query of white space
    is a query like any other.) *)
Theorem C3_empty_query_no_request
    (geocode : World -> string -> response * N) (w : World) (qs : list string) :
  let st := lookups geocode qs (mkLookup ∅ w) in
  (geocode_location geocode "" st).1.1 = None /\
  world (geocode_location geocode "" st).2 = world st /\
  geocode_location_body geocode "" (world st) = (None, [], world st).
Proof.
  intros st.
  assert (Hinv : empty_query_inv st).
  { apply empty_query_inv_lookups. by left. }
  unfold geocode_location.
  destruct Hinv as [-> | ->]; done.
Qed.

(** C5: the outcome of a lookup, "no result" included, stays in the cache
    whatever is looked up afterwards; asking the same query again returns
    that outcome and leaves the world as it is: no request is sent and no
    time is spent. *)
Theorem C5_repeated_query_served_from_cache
    (geocode : World -> string -> response * N)
    (query : string) (qs : list string) (st : Lookup) :
  let first := geocode_location geocode query st in
  let st2 := lookups geocode qs first.2 in
  let again := geocode_location geocode query st2 in
  again.1.1 = first.1.1 /\
  again.2 = st2 /\
  requests (world again.2) = requests (world st2) /\
  now (world again.2) = now (world st2).
Proof.
  intros first st2 again.
  assert (Hc : cache st2 !! query = Some (first.1.1, first.1.2)).
  { apply cache_kept_lookups, cache_after_lookup. }
  assert (Hagain : again = (first.1.1, first.1.2, st2)).
  { unfold again, geocode_location. by rewrite Hc. }
  rewrite Hagain. done.
Qed.


(** * Further properties of the code *)

(** ** Rows *)

Lemma data_text_cell_data (row : Element) (i : nat) (d : option string) :
  (i < length (ET.findall (ss "Cell") row))%nat ->
  data_text (ET.findall (ss "Cell") row) i d = Ok (field row i d).
Proof.
  intros Hi. unfold data_text, field, cell_data.
  destruct (lookup_lt_is_Some_2 _ i Hi) as [cell ->]. simpl.
  by destruct (ET.find (ss "Data") cell).
Qed.

Lemma truthy_true (t : string) : t <> "" -> truthy (Some t) = true.
Proof. by destruct t. Qed.

(** The outcome of a row of thirteen cells or more, read off its cells. *)
Lemma process_row_cases (row : Element) :
  (13 <= length (ET.findall (ss "Cell") row))%nat ->
  process_row row =
    match field row 8 (Some "") with
    | None => Escaped TypeError
    | Some loc =>
        match float_or_none (field row 9 None) with
        | Raise e => if row_except e then Skipped e else Escaped e
        | Ok lat =>
            match float_or_none (field row 10 None) with
            | Raise e => if row_except e then Skipped e else Escaped e
            | Ok lon =>
                match lat, lon with
                | Some la, Some lo =>
                    if bool_decide (field row 0 (Some "N/A") <> Some "N/A")
                    then Appended (mkLocation (field row 0 (Some "N/A"))
                                     (clean_location_text loc) la lo
                                     (field row 11 (Some "N/A"))
                                     (field row 12 (Some "N/A")))
                    else NotAppended
                | _, _ => NotAppended
                end
            end
        end
    end.
Proof.
  intros Hlen. unfold process_row, row_body.
  rewrite (proj2 (Nat.leb_le _ _) Hlen).
  rewrite !data_text_cell_data by lia. cbn [exc_bind].
  destruct (field row 8 (Some "")) as [loc|]; cbn [exc_bind]; [|done].
  destruct (float_or_none _) as [lat|e]; cbn [exc_bind]; [|done].
  destruct (float_or_none _) as [lon|e]; cbn [exc_bind]; [|done].
  destruct lat, lon; try done. by case_bool_decide.
Qed.

Lemma cell_text_field (row : Element) (i : nat) :
  cell_text i row = field row i None.
Proof.
  unfold cell_text, field, cell_data.
  destruct (_ !! i) as [cell|]; simpl; [|done].
  by destruct (ET.find _ cell).
Qed.

Lemma process_row_long (row : Element) (o : row_outcome) :
  process_row row = o -> o <> TooFewCells ->
  (13 <= length (ET.findall (ss "Cell") row))%nat.
Proof.
  unfold process_row.
  destruct (Nat.leb_spec 13 (length (ET.findall (ss "Cell") row))); [done|].
  by intros <-.
Qed.

Lemma float_or_none_raises_text (s : option string) (e : exn) :
  float_or_none s = Raise e ->
  e = ValueError /\
  exists t, s = Some t /\ t <> "" /\ py_float t = Raise ValueError.
Proof.
  intros Hs. unfold float_or_none in Hs. destruct s as [t|]; [|done].
  destruct (truthy (Some t)) eqn:Ht; [|done].
  apply truthy_Some in Ht.
  destruct (py_float t) as [x|e'] eqn:Hpy; simpl in Hs; [done|].
  injection Hs as <-.
  assert (e' = ValueError) as ->.
  { unfold py_float in Hpy. destruct (PyFloat.float_of_string t); congruence. }
  eauto.
Qed.

Lemma float_or_none_raises (s : option string) (e : exn) :
  float_or_none s = Raise e -> e = ValueError.
Proof.
  unfold float_or_none, py_float. destruct s as [t|]; [|done].
  destruct (truthy _); [|done].
  destruct (PyFloat.float_of_string t); simpl; congruence.
Qed.

Lemma not_escaped_for_rows (rows : list Element) (acc : list LocationRecord) :
  Forall (fun row => forall e, process_row row <> Escaped e) rows ->
  for_rows rows acc = Ok (acc ++ omap appended_record rows)%list.
Proof.
  intros Hall. revert acc.
  induction Hall as [|row rows Hrow _ IH]; intros acc; simpl.
  - by rewrite app_nil_r.
  - unfold appended_record at 1.
    destruct (process_row row) as [r| | |e|e] eqn:Hp; rewrite ?IH; try done.
    + by rewrite <- app_assoc.
    + by destruct (Hrow e).
Qed.

Lemma omap_length_le {A B : Type} (f : A -> option B) (l : list A) :
  (length (omap f l) <= length l)%nat.
Proof.
  induction l as [|x l IH]; [done|].
  change (omap f (x :: l)) with (match f x with
                                 | Some y => y :: omap f l
                                 | None => omap f l
                                 end).
  destruct (f x); simpl; lia.
Qed.

(** Removing a row that appends nothing and lets no exception out leaves
    the value returned as it is. *)
Lemma load_without_passed_row (root root' : Element) (pre post : list Element)
    (row : Element) :
  appended_record row = None ->
  (forall e, process_row row <> Escaped e) ->
  find_rows root = Some (pre ++ row :: post)%list ->
  find_rows root' = Some (pre ++ post)%list ->
  (3 <= length pre)%nat ->
  load_and_parse_xml_data (Ok root) = load_and_parse_xml_data (Ok root').
Proof.
  intros Hnone Hesc Hrows Hrows' Hpre. unfold load_and_parse_xml_data.
  rewrite (load_exit_rows _ _ Hrows), (load_exit_rows _ _ Hrows').
  rewrite !drop_app_le by done. rewrite !for_rows_app.
  assert (Hskip : forall acc, for_rows (row :: post) acc = for_rows post acc).
  { intros acc. simpl. unfold appended_record in Hnone.
    destruct (process_row row) as [r| | |e|e] eqn:Hp; try done.
    by destruct (Hesc e). }
  rewrite !length_app. simpl length.
  destruct (Nat.leb_spec (length pre + S (length post)) 3); [lia|].
  destruct (for_rows (drop 3 pre) []) as [acc|e] eqn:Hacc; cbn [exc_bind].
  - rewrite Hskip.
    destruct (Nat.leb_spec (length pre + length post) 3) as [Hle|]; [|done].
    assert (length post = 0)%nat as Hpost%nil_length_inv by lia. subst post.
    rewrite drop_ge in Hacc by lia. simpl in Hacc. by injection Hacc as <-.
  - by destruct (_ <=? 3)%nat.
Qed.

(** X1: A row with fewer than thirteen cells is passed over at line 42, and
    the value returned is that of the document without the row. *)
Theorem short_row_passed_over (row : Element) :
  (length (ET.findall (ss "Cell") row) < 13)%nat ->
  process_row row = TooFewCells /\
  forall (root root' : Element) (pre post : list Element),
    find_rows root = Some (pre ++ row :: post)%list ->
    find_rows root' = Some (pre ++ post)%list ->
    (3 <= length pre)%nat ->
    load_and_parse_xml_data (Ok root) = load_and_parse_xml_data (Ok root').
Proof.
  intros Hlen.
  assert (Hp : process_row row = TooFewCells).
  { unfold process_row. by rewrite (proj2 (Nat.leb_gt _ _) Hlen). }
  split; [done|]. intros root root' pre post.
  apply load_without_passed_row.
  - unfold appended_record. by rewrite Hp.
  - intros e. by rewrite Hp.
Qed.

Lemma short_row_passed_over_witness :
  process_row short_row = TooFewCells /\
  load_and_parse_xml_data
    (Ok (workbook "Full Map List" (header_rows ++ [short_row; ghostbusters_row])%list))
  = load_and_parse_xml_data
      (Ok (workbook "Full Map List" (header_rows ++ [ghostbusters_row])%list)).
Proof.
  assert (H : (length (ET.findall (ss "Cell") short_row) < 13)%nat)
    by (vm_compute; lia).
  split.
  - exact (proj1 (short_row_passed_over short_row H)).
  - exact (proj2 (short_row_passed_over short_row H)
             (workbook "Full Map List" (header_rows ++ [short_row; ghostbusters_row])%list)
             (workbook "Full Map List" (header_rows ++ [ghostbusters_row])%list)
             header_rows [ghostbusters_row] eq_refl eq_refl (le_n 3)).
Defined.

(** X2: The only exception the handler of line 76 ever catches is the
    [ValueError] of [float]: a row of thirteen cells has every cell the
    body indexes, and [.text] is only read off elements that exist. *)
Theorem row_skipped_only_for_ValueError (row : Element) (e : exn) :
  process_row row = Skipped e ->
  e = ValueError /\
  (exists t, (cell_text 9 row = Some t \/ cell_text 10 row = Some t) /\
             t <> "" /\ py_float t = Raise ValueError).
Proof.
  intros Hp.
  pose proof (process_row_long _ _ Hp ltac:(done)) as Hlen.
  rewrite (process_row_cases _ Hlen) in Hp. rewrite !cell_text_field.
  destruct (field row 8 (Some "")) as [loc|]; [|done].
  destruct (float_or_none (field row 9 None)) as [lat|e1] eqn:H9.
  - destruct (float_or_none (field row 10 None)) as [lon|e2] eqn:H10.
    + destruct lat, lon; try done. by case_bool_decide.
    + destruct (float_or_none_raises_text _ _ H10) as (-> & t & Ht & Hne & Hpy).
      simpl in Hp. injection Hp as <-. split; [done|].
      exists t. rewrite Ht. eauto.
  - destruct (float_or_none_raises_text _ _ H9) as (-> & t & Ht & Hne & Hpy).
    simpl in Hp. injection Hp as <-. split; [done|].
    exists t. rewrite Ht. eauto.
Qed.

Lemma row_skipped_only_for_ValueError_witness :
  ValueError = ValueError /\
  (exists t, (cell_text 9 blank_latitude_row = Some t \/
              cell_text 10 blank_latitude_row = Some t) /\
             t <> "" /\ py_float t = Raise ValueError).
Proof.
  apply (row_skipped_only_for_ValueError blank_latitude_row ValueError).
  vm_compute. reflexivity.
Defined.

(** X3: An exception leaves a row, and with it the loop, in one case only:
    the row has thirteen cells or more and the [Data] element of its
    location cell has no text; the exception is the [TypeError] of
    [re.sub]. *)
Theorem row_escapes_iff_location_without_text (row : Element) (e : exn) :
  process_row row = Escaped e <->
  e = TypeError /\
  (13 <= length (ET.findall (ss "Cell") row))%nat /\
  exists data, cell_data 8 row = Some data /\ ET.text data = None.
Proof.
  split.
  - intros Hp.
    pose proof (process_row_long _ _ Hp ltac:(done)) as Hlen.
    rewrite (process_row_cases _ Hlen) in Hp.
    destruct (field row 8 (Some "")) as [loc|] eqn:H8.
    + exfalso.
      destruct (float_or_none (field row 9 None)) as [lat|e1] eqn:H9.
      * destruct (float_or_none (field row 10 None)) as [lon|e2] eqn:H10.
        -- destruct lat, lon; try done. by case_bool_decide.
        -- by rewrite (float_or_none_raises _ _ H10) in Hp.
      * by rewrite (float_or_none_raises _ _ H9) in Hp.
    + injection Hp as <-. unfold field in H8.
      destruct (cell_data 8 row) as [data|]; [|done]. eauto.
  - intros (-> & Hlen & data & Hd & Ht).
    rewrite (process_row_cases _ Hlen). unfold field at 1. by rewrite Hd, Ht.
Qed.

Lemma row_escapes_iff_location_without_text_witness :
  process_row abc_latitude_row = Escaped TypeError.
Proof.
  apply (proj2 (row_escapes_iff_location_without_text abc_latitude_row TypeError)).
  split; [reflexivity|]. split; [vm_compute; lia|].
  eexists. split; reflexivity.
Defined.

Lemma py_float_empty : py_float "" = Raise ValueError.
Proof. reflexivity. Qed.

(** X4: A row of thirteen cells or more is appended as soon as its film is
    not the sentinel, its location has a text (or no [Data] element at
    all) and its latitude and longitude texts are numbers; the record
    holds the cleaned location, the parsed coordinates, and for borough
    and neighbourhood the text of the cell, or ['N/A'] when the cell has
    no [Data] element. *)
Theorem valid_row_appended (row : Element) (film : option string)
    (loc la lo : string) (lat lon : spec_float) :
  (13 <= length (ET.findall (ss "Cell") row))%nat ->
  field row 0 (Some "N/A") = film -> film <> Some "N/A" ->
  field row 8 (Some "") = Some loc ->
  cell_text 9 row = Some la -> py_float la = Ok lat ->
  cell_text 10 row = Some lo -> py_float lo = Ok lon ->
  process_row row =
    Appended (mkLocation film (clean_location_text loc) lat lon
                (field row 11 (Some "N/A")) (field row 12 (Some "N/A"))).
Proof.
  intros Hlen Hfilm Hne Hloc Hla Hlat Hlo Hlon.
  rewrite cell_text_field in Hla, Hlo.
  rewrite (process_row_cases _ Hlen), Hloc, Hla, Hlo, Hfilm.
  assert (Hf : forall t x, py_float t = Ok x ->
                 float_or_none (Some t) = Ok (Some x)).
  { intros t x Ht. unfold float_or_none.
    rewrite truthy_true; [by rewrite Ht|].
    intros ->. by rewrite py_float_empty in Ht. }
  rewrite (Hf _ _ Hlat), (Hf _ _ Hlon).
  by rewrite bool_decide_eq_true_2.
Qed.

Lemma valid_row_appended_witness :
  process_row sparse_row =
    Appended (mkLocation (Some "Taxi Driver") "8th Ave &, W 47th St"
                (S754_finite false 5736530394107347 (-47))
                (S754_finite true 5206414496719333 (-46))
                (Some "N/A") (Some "N/A")).
Proof.
  apply (valid_row_appended sparse_row (Some "Taxi Driver")
           "8th Ave &<br>W 47th St" "40.7605" "-73.9876");
    try reflexivity.
  discriminate.
Defined.

(** X5: A row whose film cell has no [Data] element takes the sentinel
    ['N/A'] for film and is therefore never appended, whatever its
    coordinates. *)
Theorem film_cell_without_data_excluded (row : Element) :
  cell_data 0 row = None -> forall r, process_row row <> Appended r.
Proof.
  intros Hd r Hp.
  pose proof (process_row_long _ _ Hp ltac:(done)) as Hlen.
  rewrite (process_row_cases _ Hlen) in Hp.
  assert (Hf : field row 0 (Some "N/A") = Some "N/A")
    by (unfold field; by rewrite Hd).
  rewrite Hf in Hp.
  destruct (field row 8 (Some "")) as [loc|]; [|done].
  destruct (float_or_none _) as [lat|e1]; [|by destruct (row_except e1)].
  destruct (float_or_none _) as [lon|e2]; [|by destruct (row_except e2)].
  destruct lat, lon; done.
Qed.

Lemma film_cell_without_data_excluded_witness :
  process_row untitled_row <>
    Appended (mkLocation (Some "N/A") "Times Square"
                (S754_finite false 5736178550386459 (-47))
                (S754_finite true 5206266722356560 (-46))
                (Some "Manhattan") (Some "Midtown")).
Proof.
  apply (film_cell_without_data_excluded untitled_row). reflexivity.
Defined.

Lemma lstrip_space_all (l : list ascii) :
  Forall (fun c => PyFloat.is_space c = true) l -> PyFloat.lstrip_space l = [].
Proof. induction 1 as [|c l Hc _ IH]; simpl; [done|]. by rewrite Hc. Qed.

Lemma float_of_spaces (t : string) :
  Forall (fun c => PyFloat.is_space c = true) (list_ascii_of_string t) ->
  py_float t = Raise ValueError.
Proof.
  intros Hall. unfold py_float, PyFloat.float_of_string, PyFloat.strip_space.
  by rewrite (lstrip_space_all _ Hall).
Qed.

(** X6: A latitude or longitude text made of white space only is not "no
    coordinate": it is true for [if lat_str], [float] raises
    [ValueError], and the row is skipped through the handler. *)
Theorem blank_coordinate_is_parse_error (row : Element) (loc t : string) :
  (13 <= length (ET.findall (ss "Cell") row))%nat ->
  field row 8 (Some "") = Some loc ->
  cell_text 9 row = Some t \/
    (cell_text 10 row = Some t /\ exists lat, float_or_none (cell_text 9 row) = Ok lat) ->
  t <> "" ->
  Forall (fun c => PyFloat.is_space c = true) (list_ascii_of_string t) ->
  process_row row = Skipped ValueError.
Proof.
  intros Hlen Hloc Hcell Hne Hall.
  rewrite (process_row_cases _ Hlen), Hloc.
  assert (Hf : float_or_none (Some t) = Raise ValueError).
  { unfold float_or_none. rewrite (truthy_true _ Hne).
    by rewrite (float_of_spaces _ Hall). }
  rewrite !cell_text_field in Hcell.
  destruct Hcell as [H9 | (H10 & lat & H9)].
  - by rewrite H9, Hf.
  - by rewrite H9, H10, Hf.
Qed.

Lemma blank_coordinate_is_parse_error_witness :
  process_row blank_latitude_row = Skipped ValueError.
Proof.
  apply (blank_coordinate_is_parse_error blank_latitude_row "Coney Island" "  ").
  - vm_compute. lia.
  - reflexivity.
  - left. reflexivity.
  - discriminate.
  - repeat constructor.
Defined.

(** ** The function as a whole, further *)

(** X7: A [DataFrame] returned is never empty, and has at most one row for
    each row of the table after the third. *)
Theorem loaded_frame_size (root : Element) (rows : list Element) (df : DataFrame) :
  find_rows root = Some rows ->
  load_and_parse_xml_data (Ok root) = Some df ->
  (0 < length df <= length rows - 3)%nat.
Proof.
  intros Hrows (rows' & Hrows' & _ & Hne & Hfor)%load_Some.
  rewrite Hrows in Hrows'. injection Hrows' as <-.
  apply for_rows_Ok in Hfor. simpl in Hfor. subst df. split.
  - destruct (omap appended_record (drop 3 rows)); [done|simpl; lia].
  - etransitivity; [apply omap_length_le|]. by rewrite length_drop.
Qed.

Lemma loaded_frame_size_witness :
  (0 < length [mkLocation (Some "Ghostbusters") "55 Central Park W, Manhattan"
                 (S754_finite false 5728015776061850 (-47))
                 (S754_finite true 5207287069147136 (-46))
                 (Some "Manhattan") (Some "Upper West Side")]
   <= length (header_rows ++ [na_row; ghostbusters_row])%list - 3)%nat.
Proof.
  exact (loaded_frame_size
           (workbook "Full Map List" (header_rows ++ [na_row; ghostbusters_row])%list)
           _ _ eq_refl eq_refl).
Defined.

(** X8: Rows added at the end of the table add their records at the end of
    the result, as long as none of them lets an exception out. *)
Theorem rows_appended_extend_result (root root' : Element)
    (rows extra : list Element) (df : DataFrame) :
  find_rows root = Some rows ->
  find_rows root' = Some (rows ++ extra)%list ->
  Forall (fun row => forall e, process_row row <> Escaped e) extra ->
  load_and_parse_xml_data (Ok root) = Some df ->
  load_and_parse_xml_data (Ok root')
  = Some (df ++ omap appended_record extra)%list.
Proof.
  intros Hrows Hrows' Hextra (rows2 & Hrows2 & Hlen & Hne & Hfor)%load_Some.
  rewrite Hrows in Hrows2. injection Hrows2 as <-.
  apply (load_of_for_rows _ _ _ Hrows').
  - rewrite drop_app_le by lia. rewrite for_rows_app, Hfor. simpl.
    by apply not_escaped_for_rows.
  - by destruct df.
Qed.

Lemma rows_appended_extend_result_witness :
  load_and_parse_xml_data
    (Ok (workbook "Full Map List"
           ((header_rows ++ [ghostbusters_row]) ++ [blank_latitude_row; sparse_row])%list))
  = Some ([mkLocation (Some "Ghostbusters") "55 Central Park W, Manhattan"
             (S754_finite false 5728015776061850 (-47))
             (S754_finite true 5207287069147136 (-46))
             (Some "Manhattan") (Some "Upper West Side")]
          ++ omap appended_record [blank_latitude_row; sparse_row])%list.
Proof.
  apply (rows_appended_extend_result
           (workbook "Full Map List" (header_rows ++ [ghostbusters_row])%list)
           _ (header_rows ++ [ghostbusters_row])%list
           [blank_latitude_row; sparse_row]);
    try reflexivity.
  repeat constructor; intros e; vm_compute; discriminate.
Defined.

(** ** Cleaning *)

Lemma lstrip_head (chars s : string) (c : ascii) (r : string) :
  PyStr.lstrip chars s = String c r -> PyStr.in_chars chars c = false.
Proof.
  induction s as [|a s IH]; simpl; [done|].
  destruct (PyStr.in_chars chars a) eqn:Ha; [done|]. by intros [= <- <-].
Qed.

Lemma rstrip_head (chars s : string) (c : ascii) (r : string) :
  PyStr.rstrip chars s = String c r -> exists r', s = String c r'.
Proof.
  destruct s as [|a s]; simpl; [done|].
  destruct (PyStr.rstrip chars s); [destruct (PyStr.in_chars chars a)|];
    intros [= <- <-] || done; eauto.
Qed.

Lemma append_one_inv (pre : string) (c a : ascii) :
  pre +:+ String c "" = String a "" -> pre = "" /\ c = a.
Proof.
  destruct pre as [|b [|b' pre]]; simpl; [by intros [= ->] |done..].
Qed.

Lemma rstrip_last (chars s pre : string) (c : ascii) :
  PyStr.rstrip chars s = pre +:+ String c "" -> PyStr.in_chars chars c = false.
Proof.
  revert pre. induction s as [|a s IH]; intros pre; simpl.
  - by destruct pre.
  - destruct (PyStr.rstrip chars s) as [|b r] eqn:Hr.
    + destruct (PyStr.in_chars chars a) eqn:Ha; [by destruct pre|].
      intros H. symmetry in H. by apply append_one_inv in H as [_ ->].
    + destruct pre as [|a' pre]; simpl; [done|].
      intros [= <- H]. by apply (IH pre).
Qed.

Lemma in_chars_comma_space (c : ascii) :
  PyStr.in_chars ", " c = false -> c <> ","%char /\ c <> " "%char.
Proof.
  unfold PyStr.in_chars. simpl. rewrite !orb_false_iff.
  intros (H1 & H2 & _). split; intros ->; done.
Qed.

(** X9: A cleaned location text neither begins nor ends with a comma or a
    space. *)
Theorem clean_text_has_no_outer_separator (t : string) :
  (forall c r, clean_location_text t = String c r ->
               c <> ","%char /\ c <> " "%char) /\
  (forall pre c, clean_location_text t = pre +:+ String c "" ->
                 c <> ","%char /\ c <> " "%char).
Proof.
  unfold clean_location_text, PyStr.strip. split.
  - intros c r H. apply in_chars_comma_space.
    destruct (rstrip_head _ _ _ _ H) as [r' Hl].
    by apply lstrip_head in Hl.
  - intros pre c H. apply in_chars_comma_space. by apply rstrip_last in H.
Qed.

Lemma clean_text_has_no_outer_separator_witness :
  "M"%char <> ","%char /\ "M"%char <> " "%char.
Proof.
  apply (proj1 (clean_text_has_no_outer_separator ",Main St,") "M"%char "ain St").
  reflexivity.
Defined.

Lemma re_sub_without_lt (n : nat) (repl s : string) :
  Forall (fun c => c <> "<"%char) (list_ascii_of_string s) ->
  PyStr.re_sub_tag_steps n repl s = s.
Proof.
  revert s. induction n as [|n IH]; intros s Hs; [done|].
  destruct s as [|c r]; [done|]. simpl in Hs. inversion Hs as [|? ? Hc Hr]; subst.
  cbn [PyStr.re_sub_tag_steps].
  assert (PyStr.match_tag (String c r) = None) as ->.
  { unfold PyStr.match_tag. destruct r; [done|].
    by rewrite (proj2 (Ascii.eqb_neq _ _) Hc). }
  by rewrite IH.
Qed.

Lemma replace_without_comma (n : nat) (new s : string) :
  Forall (fun c => c <> ","%char) (list_ascii_of_string s) ->
  PyStr.replace_steps n ", ," new s = s.
Proof.
  revert s. induction n as [|n IH]; intros s Hs; [done|].
  destruct s as [|c r]; [done|]. simpl in Hs. inversion Hs as [|? ? Hc Hr]; subst.
  cbn [PyStr.replace_steps].
  assert (PyStr.strip_prefix ", ," (String c r) = None) as ->.
  { change (PyStr.strip_prefix ", ," (String c r))
      with (if Ascii.eqb "," c then PyStr.strip_prefix " ," r else None).
    assert (Ascii.eqb "," c = false) as ->; [|done].
    apply Ascii.eqb_neq. congruence. }
  by rewrite IH.
Qed.

Lemma rstrip_keeps (chars pre : string) (c : ascii) :
  PyStr.in_chars chars c = false ->
  PyStr.rstrip chars (pre +:+ String c "") = pre +:+ String c "".
Proof.
  intros Hc. induction pre as [|a pre IH]; simpl.
  - by rewrite Hc.
  - rewrite IH. by destruct pre.
Qed.

Lemma string_snoc (s : string) :
  s <> "" -> exists pre c, s = pre +:+ String c "".
Proof.
  induction s as [|a s IH]; [done|]. intros _.
  destruct s as [|b s].
  - by exists "", a.
  - destruct IH as (pre & c & Hs); [done|]. exists (String a pre), c.
    simpl. by rewrite Hs.
Qed.

Lemma chars_of_snoc (pre : string) (c : ascii) :
  list_ascii_of_string (pre +:+ String c "")
  = (list_ascii_of_string pre ++ [c])%list.
Proof. induction pre as [|a pre IH]; simpl; [done|]. by rewrite IH. Qed.

(** X10: A location text without markup and without commas, which does not
    begin or end with a space, is kept as it is. *)
Theorem plain_text_unchanged (t : string) :
  Forall (fun c => c <> "<"%char /\ c <> ","%char) (list_ascii_of_string t) ->
  (forall r, t <> String " " r) ->
  (forall pre, t <> pre +:+ " ") ->
  clean_location_text t = t.
Proof.
  intros Hall Hfirst Hlast. unfold clean_location_text, PyStr.re_sub_tag.
  rewrite re_sub_without_lt by (eapply Forall_impl; [exact Hall|]; by intros c []).
  unfold PyStr.replace.
  rewrite replace_without_comma by (eapply Forall_impl; [exact Hall|]; by intros c []).
  unfold PyStr.strip.
  destruct t as [|a t]; [done|].
  assert (Hin : forall c, c ∈ list_ascii_of_string (String a t) -> c <> " "%char ->
                  PyStr.in_chars ", " c = false).
  { intros c Hc Hsp. rewrite Forall_forall in Hall.
    destruct (Hall c Hc) as [_ Hcomma].
    unfold PyStr.in_chars. simpl. rewrite !orb_false_iff.
    repeat split; by apply Ascii.eqb_neq. }
  assert (Hl : PyStr.lstrip ", " (String a t) = String a t).
  { simpl PyStr.lstrip. rewrite Hin; [done|by left|].
    intros ->. by apply (Hfirst t). }
  rewrite Hl.
  destruct (string_snoc (String a t)) as (pre & c & Hs); [done|].
  rewrite Hs. apply rstrip_keeps. apply Hin.
  - rewrite Hs, chars_of_snoc. apply elem_of_app. right. by left.
  - intros ->. by apply (Hlast pre).
Qed.

Lemma plain_text_unchanged_witness :
  clean_location_text "55 Central Park W" = "55 Central Park W".
Proof.
  apply plain_text_unchanged.
  - repeat constructor; discriminate.
  - discriminate.
  - intros pre H.
    assert (Hc := f_equal list_ascii_of_string H).
    rewrite chars_of_snoc in Hc.
    apply (f_equal (@rev ascii)) in Hc. rewrite rev_app_distr in Hc.
    simpl in Hc. discriminate Hc.
Defined.

(** ** One lookup *)

Section OneLookup.
Variable geocode : World -> string -> response * N.

Lemma call_eq (n : nat) (rl : RateLimiter.t) (q : string) (w : World) :
  RateLimiter.call geocode n rl q w =
    let '(rl1, w1) := RateLimiter.acquire_request_slot rl w in
    let '(r, w2) := RateLimiter.send geocode q w1 in
    match r with
    | Found la lo => (Ok (Some (la, lo)), rl1, w2)
    | NoMatch => (Ok None, rl1, w2)
    | Failure e => (Raise e, rl1, w2)
    | ServiceFailure =>
        match n with
        | O => (Ok None, rl1, w2)
        | S n' => RateLimiter.call geocode n' rl1 q
                    (sleep (RateLimiter.error_wait rl1) w2)
        end
    end.
Proof. by destruct n. Qed.

Lemma acquire_facts (rl : RateLimiter.t) (w : World) :
  requests (RateLimiter.acquire_request_slot rl w).2 = requests w /\
  now w <= now (RateLimiter.acquire_request_slot rl w).2 /\
  RateLimiter.error_wait (RateLimiter.acquire_request_slot rl w).1
  = RateLimiter.error_wait rl.
Proof.
  unfold RateLimiter.acquire_request_slot.
  destruct (RateLimiter.last_call rl) as [last|]; simpl; [|by auto with lia].
  destruct (Z.leb_spec (RateLimiter.min_delay rl - (now w - last)) 0); simpl;
    auto with lia.
Qed.

(** The requests of one call through a limiter. *)
Lemma call_requests_shape (n : nat) (rl : RateLimiter.t) (q : string) (w : World) :
  0 <= RateLimiter.error_wait rl ->
  exists more,
    requests (RateLimiter.call geocode n rl q w).2 = (requests w ++ more)%list /\
    (1 <= length more <= S n)%nat /\
    Forall (fun r => r.2 = q /\ now w <= r.1) more /\
    spaced (RateLimiter.error_wait rl) more.
Proof.
  revert rl w. induction n as [|n IH]; intros rl w Hew; rewrite call_eq;
    destruct (acquire_facts rl w) as (Hreq & Hnow & Herr);
    destruct (RateLimiter.acquire_request_slot rl w) as [rl1 w1];
    simpl in Hreq, Hnow, Herr; unfold RateLimiter.send;
    destruct (geocode w1 q) as [r took];
    assert (Hone : exists more,
              (requests w1 ++ [(now w1, q)])%list = (requests w ++ more)%list /\
              (1 <= length more <= 1)%nat /\
              Forall (fun r => r.2 = q /\ now w <= r.1) more /\
              spaced (RateLimiter.error_wait rl) more)
      by (exists [(now w1, q)]; rewrite Hreq; simpl;
          repeat split; try lia; by repeat constructor);
    destruct Hone as (one & H1 & H2 & H3 & H4);
    destruct r; simpl;
    try (exists one; repeat split; try done; lia).
  destruct (IH rl1 (sleep (RateLimiter.error_wait rl1)
                      (mkWorld (now w1 + Z.of_N took)
                               (requests w1 ++ [(now w1, q)])%list)))
    as (more & Hm & Hlen & Hall & Hsp); [lia|].
  exists ((now w1, q) :: more). simpl in Hm, Hall. rewrite Hm, Hreq, Herr in *.
  split; [|split; [|split]].
  - by rewrite <- app_assoc.
  - simpl. lia.
  - constructor; [simpl; split; [done|lia]|].
    eapply Forall_impl; [exact Hall|]. simpl. intros r0 [? ?]. split; [done|lia].
  - simpl. split; [|done]. destruct more as [|b more]; [done|].
    inversion Hall as [|? ? [_ Hb] _]; subst. simpl in *. lia.
Qed.

Lemma body_requests_shape (q : string) (w : World) :
  q <> "" ->
  exists more,
    requests (geocode_location_body geocode q w).2 = (requests w ++ more)%list /\
    (1 <= length more <= 3)%nat /\
    Forall (fun r => r.2 = q /\ now w <= r.1) more /\
    spaced 5000 more.
Proof.
  intros Hq. unfold geocode_location_body.
  destruct (String.eqb_spec q ""); [done|]. unfold RateLimiter.run.
  destruct (call_requests_shape 2 (RateLimiter.new 1) q w) as [more Hm]; [done|].
  simpl RateLimiter.max_retries.
  destruct (RateLimiter.call _ _ _ _ _) as [[location rl] w'].
  exists more. simpl in Hm. by destruct location as [[c|]|e].
Qed.

(** When the service keeps failing, every try is spent and the failure
    swallowed. *)
Lemma call_all_failures (n : nat) (rl : RateLimiter.t) (q : string) (w : World) :
  (forall w', (geocode w' q).1 = ServiceFailure) ->
  0 <= RateLimiter.error_wait rl ->
  exists more rl' w',
    RateLimiter.call geocode n rl q w = (Ok None, rl', w') /\
    requests w' = (requests w ++ more)%list /\
    length more = S n /\
    now w + Z.of_nat n * RateLimiter.error_wait rl <= now w'.
Proof.
  intros Hfail. revert rl w. induction n as [|n IH]; intros rl w Hew;
    rewrite call_eq;
    destruct (acquire_facts rl w) as (Hreq & Hnow & Herr);
    destruct (RateLimiter.acquire_request_slot rl w) as [rl1 w1];
    simpl in Hreq, Hnow, Herr; unfold RateLimiter.send;
    pose proof (Hfail w1) as Hr;
    destruct (geocode w1 q) as [r took]; simpl in Hr; subst r.
  - exists [(now w1, q)]. eexists _, _. split; [done|]. simpl.
    rewrite Hreq. repeat split. lia.
  - destruct (IH rl1 (sleep (RateLimiter.error_wait rl1)
                        (mkWorld (now w1 + Z.of_N took)
                                 (requests w1 ++ [(now w1, q)])%list)))
      as (more & rl' & w' & Hc & Hm & Hlen & Ht); [lia|].
    exists ((now w1, q) :: more), rl', w'. simpl in Hm, Ht.
    rewrite Hc, Hm, Hreq. rewrite Herr in Ht. repeat split.
    + by rewrite <- app_assoc.
    + simpl. lia.
    + lia.
Qed.

End OneLookup.

(** X11: A lookup of a non-empty query that is not in the cache sends between
    one and three requests, each carrying the query as it was typed, none
    before the call, and every retry at least five seconds after the try
    before it. *)
Theorem lookup_requests (geocode : World -> string -> response * N)
    (q : string) (st : Lookup) :
  q <> "" -> cache st !! q = None ->
  exists more,
    requests (world (geocode_location geocode q st).2)
    = (requests (world st) ++ more)%list /\
    (1 <= length more <= 3)%nat /\
    Forall (fun r => r.2 = q /\ now (world st) <= r.1) more /\
    spaced 5000 more.
Proof.
  intros Hq Hc. unfold geocode_location. rewrite Hc.
  destruct (body_requests_shape geocode q (world st) Hq) as [more Hm].
  destruct (geocode_location_body _ _ _) as [[outcome shown] w'].
  by exists more.
Qed.

Lemma lookup_requests_witness :
  exists more,
    requests (world (geocode_location failing_provider "Paris" fresh).2)
    = (requests (world fresh) ++ more)%list /\
    (1 <= length more <= 3)%nat /\
    Forall (fun r => r.2 = "Paris" /\ now (world fresh) <= r.1) more /\
    spaced 5000 more.
Proof.
  apply (lookup_requests failing_provider "Paris" fresh); [discriminate|reflexivity].
Defined.

(** X12: A provider reply that is a place, no match, or an exception other
    than a service error ends the lookup after a single request, sent at
    once: a place gives its coordinates and no message, no match gives
    "no result" with the warning that names the query, an exception gives
    "no result" with the error that names the query. *)
Theorem definite_reply_outcome (geocode : World -> string -> response * N)
    (q : string) (w : World) (r : response) (took : N) :
  q <> "" -> geocode w q = (r, took) -> r <> ServiceFailure ->
  geocode_location_body geocode q w =
    (match r with Found la lo => Some (la, lo) | _ => None end,
     match r with
     | Found _ _ => []
     | Failure e => [Error ("Geocoding error for '" +:+ q +:+ "'") (Some e)]
     | _ => [Warning ("Location not found: " +:+ q) None]
     end,
     mkWorld (now w + Z.of_N took) (requests w ++ [(now w, q)])%list).
Proof.
  intros Hq Hr Hne. unfold geocode_location_body.
  destruct (String.eqb_spec q ""); [done|].
  unfold RateLimiter.run. rewrite call_eq.
  unfold RateLimiter.acquire_request_slot, RateLimiter.send. simpl.
  rewrite Hr. by destruct r.
Qed.

Lemma definite_reply_outcome_witness :
  geocode_location_body quick_provider "Paris" (mkWorld 0 []) =
    (Some (S754_zero false, S754_zero false), [], mkWorld 120 [(0, "Paris")]).
Proof.
  apply (definite_reply_outcome quick_provider "Paris" (mkWorld 0 [])
           (Found (S754_zero false) (S754_zero false)) 120%N);
    [discriminate | reflexivity | discriminate].
Defined.

(** X13: When the provider keeps failing with service errors, the lookup makes
    its three tries, at least ten seconds go by, and the outcome is the
    "Location not found" warning: the limiter swallows the last failure,
    so the error branch of line 107 is not taken. *)
Theorem service_failure_reported_as_not_found
    (geocode : World -> string -> response * N) (q : string) (w : World) :
  q <> "" ->
  (forall w', (geocode w' q).1 = ServiceFailure) ->
  exists more w',
    geocode_location_body geocode q w
    = (None, [Warning ("Location not found: " +:+ q) None], w') /\
    requests w' = (requests w ++ more)%list /\
    length more = 3%nat /\
    now w + 10000 <= now w'.
Proof.
  intros Hq Hfail. unfold geocode_location_body.
  destruct (String.eqb_spec q ""); [done|]. unfold RateLimiter.run.
  destruct (call_all_failures geocode 2 (RateLimiter.new 1) q w Hfail)
    as (more & rl' & w' & Hc & Hm & Hlen & Ht); [done|].
  simpl RateLimiter.max_retries. rewrite Hc.
  exists more, w'. simpl in Ht. repeat split; done || lia.
Qed.

Lemma service_failure_reported_as_not_found_witness :
  exists more w',
    geocode_location_body failing_provider "Paris" (mkWorld 0 [])
    = (None, [Warning ("Location not found: " +:+ "Paris") None], w') /\
    requests w' = (requests (mkWorld 0 []) ++ more)%list /\
    length more = 3%nat /\
    now (mkWorld 0 []) + 10000 <= now w'.
Proof.
  apply (service_failure_reported_as_not_found failing_provider "Paris" (mkWorld 0 []));
    [discriminate | reflexivity].
Defined.

(** ** Lookups in a row *)

Lemma lookup_step_requests (geocode : World -> string -> response * N)
    (q : string) (st : Lookup) :
  exists more,
    requests (world (geocode_location geocode q st).2)
    = (requests (world st) ++ more)%list /\
    (length more <= 3)%nat /\
    Forall (fun r => r.2 = q /\ q <> "") more.
Proof.
  unfold geocode_location.
  destruct (cache st !! q) as [[outcome shown]|].
  { exists []. rewrite app_nil_r. simpl. split; [done|]. split; [lia|constructor]. }
  destruct (String.eqb_spec q "") as [->|Hq].
  { exists []. rewrite app_nil_r. simpl. split; [done|]. split; [lia|constructor]. }
  destruct (body_requests_shape geocode q (world st) Hq)
    as (more & Hm & Hlen & Hall & _).
  destruct (geocode_location_body _ _ _) as [[outcome shown] w'].
  exists more. simpl in *. repeat split; try done; try lia.
  eapply Forall_impl; [exact Hall|]. by intros r [? _].
Qed.

(** X14: Whatever is looked up, and in whatever state, the requests sent are
    added after those already sent, there are at most three for each
    lookup, and each carries one of the queries looked up, never the
    empty one. *)
Theorem lookups_send_only_their_queries
    (geocode : World -> string -> response * N) (qs : list string) (st : Lookup) :
  exists more,
    requests (world (lookups geocode qs st)) = (requests (world st) ++ more)%list /\
    (length more <= 3 * length qs)%nat /\
    Forall (fun r => r.2 ∈ qs /\ r.2 <> "") more.
Proof.
  revert st. induction qs as [|q qs IH]; intros st; simpl.
  - exists []. rewrite app_nil_r. simpl. split; [done|]. split; [lia|constructor].
  - destruct (lookup_step_requests geocode q st) as (m1 & H1 & L1 & A1).
    destruct (IH (geocode_location geocode q st).2) as (m2 & H2 & L2 & A2).
    exists (m1 ++ m2)%list. rewrite H2, H1, <- app_assoc. repeat split.
    + rewrite length_app. lia.
    + apply Forall_app. split.
      * eapply Forall_impl; [exact A1|]. intros r [-> ?]. split; [by left|done].
      * eapply Forall_impl; [exact A2|]. intros r [? ?]. split; [by right|done].
Qed.

(** ** The script, step by step *)

Section ScriptSteps.
Variable geocode : World -> string -> response * N.
Variable format_float : nat -> spec_float -> string.
Variable folium_Marker :
  Center -> option string -> string -> string * string -> exc Marker.

Lemma views_app (p1 p2 : list widget) :
  views (p1 ++ p2) = (views p1 ++ views p2)%list.
Proof. unfold views. apply List.filter_app. Qed.

Lemma plot_warnings_app (p1 p2 : list widget) :
  plot_warnings (p1 ++ p2) = (plot_warnings p1 + plot_warnings p2)%nat.
Proof. unfold plot_warnings. by rewrite List.filter_app, length_app. Qed.

Lemma show_all_sidebar (shown : list message) (v : Vars) :
  let v' := fold_left (fun acc msg => show (Sidebar msg) acc) shown v in
  map_center v' = map_center v /\ map_zoom v' = map_zoom v /\
  m v' = m v /\ count v' = count v /\ views (page v') = views (page v).
Proof.
  revert v. induction shown as [|msg shown IH]; intros v; simpl; [done|].
  destruct (IH (show (Sidebar msg) v)) as (-> & -> & -> & -> & ->). simpl.
  rewrite views_app. simpl. by rewrite app_nil_r.
Qed.

(** Lines 132 to 137 move the map when, and only when, the search finds
    a place. *)
Lemma search_step_vars (q : string) (v : Vars) (lk : Lookup) :
  let v' := (search_step geocode format_float q v lk).1 in
  map_center v' = match search_result geocode q lk with
                  | Some c => At c
                  | None => map_center v
                  end /\
  map_zoom v' = match search_result geocode q lk with
                | Some _ => 14
                | None => map_zoom v
                end /\
  m v' = m v /\ count v' = count v /\ views (page v') = views (page v).
Proof.
  unfold search_step, search_result. destruct (String.eqb q ""); [done|].
  destruct (geocode_location geocode q lk) as [[found shown] lk']. simpl.
  destruct (show_all_sidebar shown v) as (Hc & Hz & Hm & Hn & Hv).
  destruct found as [c|]; simpl; [|done].
  rewrite views_app, Hm, Hn, Hv. simpl. by rewrite app_nil_r.
Qed.

Lemma plot_rows_vars (rows : list LocationRecord) (idx : nat) (v : Vars) :
  let v' := plot_rows format_float folium_Marker idx rows v in
  map_center v' = map_center v /\ map_zoom v' = map_zoom v /\
  views (page v') = views (page v) /\
  (count v' + plot_warnings (page v')
   = count v + plot_warnings (page v) + length rows)%nat /\
  (length (m v') + plot_warnings (page v')
   = length (m v) + plot_warnings (page v) + length rows)%nat.
Proof.
  revert idx v. induction rows as [|row rows IH]; intros idx v; simpl.
  - repeat split; lia.
  - destruct (IH (S idx) (plot_row format_float folium_Marker idx row v))
      as (-> & -> & -> & Hc & Hm).
    rewrite Hc, Hm. unfold plot_row.
    destruct (folium_Marker _ _ _ _); simpl.
    + rewrite length_app. simpl. repeat split; lia.
    + rewrite views_app, plot_warnings_app. simpl.
      change (plot_warnings [Main (Warning _ (Some e))]) with 1%nat.
      rewrite app_nil_r. repeat split; lia.
Qed.

Lemma plot_step_vars (v : Vars) :
  let v' := plot_step format_float folium_Marker v in
  map_center v' = map_center v /\ map_zoom v' = map_zoom v /\
  views (page v') = views (page v) /\
  (count v' + plot_warnings (page v')
   = count v + plot_warnings (page v) + length (data_df v))%nat /\
  (length (m v') + plot_warnings (page v')
   = length (m v) + plot_warnings (page v) + length (data_df v))%nat.
Proof.
  unfold plot_step. simpl.
  match goal with
  | |- context [plot_rows _ _ 0 ?rows ?v0] =>
      destruct (plot_rows_vars rows 0 v0) as (Hc & Hz & Hv & Hn & Hm)
  end.
  simpl in *. rewrite !views_app, !plot_warnings_app in *. simpl in *.
  repeat match goal with
  | H : context [plot_warnings [Main (Write ?t)]] |- _ =>
      change (plot_warnings [Main (Write t)]) with 0%nat in H
  | |- context [plot_warnings [Main (Write ?t)]] =>
      change (plot_warnings [Main (Write t)]) with 0%nat
  end.
  rewrite !app_nil_r in *. rewrite Hv. repeat split; try done; lia.
Qed.

Lemma search_marker_step_cases (q : string) (v : Vars) :
  search_marker_step folium_Marker q v =
    match map_center v with
    | At c =>
        if String.eqb q "" then Ok v
        else match folium_Marker (At c) None ("Searched: " +:+ q)
                     ("green", "search") with
             | Ok k => Ok (add_to_m k v)
             | Raise e => Raise e
             end
    | DEFAULT_CENTER => Ok v
    end.
Proof.
  unfold search_marker_step. destruct (map_center v) as [|c] eqn:Hc; [done|].
  destruct (String.eqb q ""); [done|]. by destruct (folium_Marker _ _ _ _).
Qed.

End ScriptSteps.

(** X15: The plotting loop accounts for every record: each one either adds a
    marker and counts, or shows a warning; so the count reported at line
    181 and the markers added are the records less the warnings. *)
Theorem plot_step_accounts_for_every_record
    (format_float : nat -> spec_float -> string)
    (folium_Marker : Center -> option string -> string -> string * string -> exc Marker)
    (v : Vars) :
  let v' := plot_step format_float folium_Marker v in
  (count v' + plot_warnings (page v')
   = count v + plot_warnings (page v) + length (data_df v))%nat /\
  (length (m v') + plot_warnings (page v')
   = length (m v) + plot_warnings (page v) + length (data_df v))%nat /\
  data_df v' = data_df v.
Proof.
  destruct (plot_step_vars format_float folium_Marker v) as (_ & _ & _ & Hc & Hm).
  repeat split; try done. apply plot_step_data_df.
Qed.

(** X16: A run that reaches its end shows one map and, after it, the table
    when the box is ticked and not otherwise: the map is centred on the
    place found at zoom 14 when the search finds one, on the default
    centre at zoom 11 when there is no query or nothing is found, and the
    table is the record set. *)
Theorem finished_run_views
    (geocode : World -> string -> response * N)
    (format_float : nat -> spec_float -> string)
    (folium_Map : Center -> Z -> exc unit)
    (folium_Marker : Center -> option string -> string -> string * string -> exc Marker)
    (st_folium : Center -> Z -> list Marker -> exc unit)
    (q : string) (show_table : bool) (df : DataFrame) (shown : list message)
    (lk : Lookup) (v : Vars) :
  (run_loaded geocode format_float folium_Map folium_Marker st_folium
     q show_table df shown lk).1 = Done v ->
  views (page v) =
    (MapView (match search_result geocode q lk with
              | Some c => At c
              | None => DEFAULT_CENTER
              end)
             (match search_result geocode q lk with
              | Some _ => 14
              | None => DEFAULT_ZOOM
              end)
             (m v)
     :: if show_table then [DataTable df] else [])%list.
Proof.
  unfold run_loaded.
  assert (Hv0 : views (map Main shown ++
                  [Sidebar (Success ("Loaded " +:+ pretty (length df)
                                     +:+ " locations."))])%list = []).
  { rewrite views_app. simpl. rewrite app_nil_r.
    induction shown as [|msg shown IH]; [done|]. exact IH. }
  pose proof (search_step_vars geocode format_float q
    (mkVars df DEFAULT_CENTER DEFAULT_ZOOM [] 0
       (map Main shown ++
        [Sidebar (Success ("Loaded " +:+ pretty (length df) +:+ " locations."))])%list)
    lk) as (Hc1 & Hz1 & _ & _ & Hv1).
  pose proof (search_step_data_df geocode format_float q
    (mkVars df DEFAULT_CENTER DEFAULT_ZOOM [] 0
       (map Main shown ++
        [Sidebar (Success ("Loaded " +:+ pretty (length df) +:+ " locations."))])%list)
    lk) as Hd1.
  destruct (search_step _ _ _ _ _) as [v1 lk']. simpl in Hc1, Hz1, Hv1, Hd1.
  rewrite Hv0 in Hv1.
  destruct (folium_Map _ _) as [[]|e0]; [|done].
  pose proof (plot_step_vars format_float folium_Marker v1) as (Hc2 & Hz2 & Hv2 & _).
  pose proof (plot_step_data_df format_float folium_Marker v1) as Hd2.
  remember (plot_step format_float folium_Marker v1) as v2 eqn:Ev2. clear Ev2.
  rewrite search_marker_step_cases.
  assert (Hrender : forall v3, map_center v3 = map_center v2 ->
            map_zoom v3 = map_zoom v2 -> page v3 = page v2 ->
            data_df v3 = data_df v2 ->
            (match st_folium (map_center v3) (map_zoom v3) (m v3) with
             | Ok _ => (Done (render_step show_table v3), lk')
             | Raise e => (Crashed e v3, lk')
             end).1 = Done v ->
            views (page v) =
              (MapView (map_center v2) (map_zoom v2) (m v)
               :: if show_table then [DataTable df] else [])%list).
  { intros v3 E1 E2 E3 E4. destruct (st_folium _ _ _) as [[]|e1]; [|done].
    intros [= <-]. unfold render_step.
    destruct show_table; simpl; rewrite ?views_app, E3, Hv2, Hv1; simpl;
      rewrite ?E1, ?E2, ?E4, ?Hd2, ?Hd1; done. }
  rewrite <- Hc1, <- Hz1, <- Hc2, <- Hz2. clear Hc1 Hz1 Hc2 Hz2.
  destruct (map_center v2) as [|c] eqn:Hcenter.
  - by apply Hrender.
  - destruct (String.eqb q "").
    + by apply Hrender.
    + destruct (folium_Marker _ _ _ _) as [k|e]; [|done].
      by apply Hrender.
Qed.

Lemma finished_run_views_witness :
  views (page (mkVars [] (At (S754_zero false, S754_zero false)) 14
                 [mkMarker (At (S754_zero false, S754_zero false)) None
                    "Searched: Paris" ("green", "search")] 0
                 [Sidebar (Success "Loaded 0 locations.");
                  Sidebar (Info "Map centered on: (0.0, 0.0)");
                  Main (Write "Plotting 0 film locations...");
                  Main (Write "Successfully plotted 0 locations.");
                  MapView (At (S754_zero false, S754_zero false)) 14
                    [mkMarker (At (S754_zero false, S754_zero false)) None
                       "Searched: Paris" ("green", "search")];
                  DataTable []]))
  = [MapView (At (S754_zero false, S754_zero false)) 14
       [mkMarker (At (S754_zero false, S754_zero false)) None
          "Searched: Paris" ("green", "search")];
     DataTable []].
Proof.
  exact (finished_run_views quick_provider (fun _ _ => "0.0") any_Map any_Marker
           any_st_folium "Paris" true [] [] fresh _ eq_refl).
Defined.

(** X17: An exception ends a run only where the script has no [try]: at
    the map of line 143, at the marker of the searched place, or at
    [st_folium]; markers rejected in the plotting loop never end a run.
    A map that is rejected ends the run with its exception, and so does
    a rejected marker of the searched place once the map is accepted. *)
Theorem run_crashes_only_outside_plotting_loop
    (geocode : World -> string -> response * N)
    (format_float : nat -> spec_float -> string)
    (folium_Map : Center -> Z -> exc unit)
    (folium_Marker : Center -> option string -> string -> string * string -> exc Marker)
    (st_folium : Center -> Z -> list Marker -> exc unit)
    (q : string) (show_table : bool) (df : DataFrame) (shown : list message)
    (lk : Lookup) (e : exn) :
  let center := match search_result geocode q lk with
                | Some c => At c
                | None => DEFAULT_CENTER
                end in
  let zoom := match search_result geocode q lk with
              | Some _ => 14
              | None => DEFAULT_ZOOM
              end in
  let searched c := folium_Marker (At c) None ("Searched: " +:+ q)
                      ("green", "search") in
  let crashed := exists v, (run_loaded geocode format_float folium_Map folium_Marker
                              st_folium q show_table df shown lk).1 = Crashed e v in
  (crashed ->
     folium_Map center zoom = Raise e \/
     (exists c, search_result geocode q lk = Some c /\ searched c = Raise e) \/
     (exists markers, st_folium center zoom markers = Raise e)) /\
  (folium_Map center zoom = Raise e -> crashed) /\
  (folium_Map center zoom = Ok tt ->
   forall c, search_result geocode q lk = Some c -> searched c = Raise e ->
   crashed).
Proof.
  cbv zeta. unfold run_loaded.
  pose proof (search_step_vars geocode format_float q
    (mkVars df DEFAULT_CENTER DEFAULT_ZOOM [] 0
       (map Main shown ++
        [Sidebar (Success ("Loaded " +:+ pretty (length df) +:+ " locations."))])%list)
    lk) as (Hc1 & Hz1 & _).
  assert (Hq : search_result geocode q lk <> None -> String.eqb q "" = false).
  { unfold search_result. by destruct (String.eqb q ""). }
  destruct (search_step _ _ _ _ _) as [v1 lk']. simpl in Hc1, Hz1.
  rewrite <- Hc1, <- Hz1.
  destruct (folium_Map (map_center v1) (map_zoom v1)) as [[]|e0] eqn:Hmap.
  2: { repeat split.
       - intros [v [= -> _]]. by left.
       - intros [= ->]. eauto.
       - done. }
  pose proof (plot_step_vars format_float folium_Marker v1) as (Hc2 & Hz2 & _).
  remember (plot_step format_float folium_Marker v1) as v2 eqn:Ev2. clear Ev2.
  rewrite search_marker_step_cases, Hc2.
  assert (Hlast : forall v3, map_center v3 = map_center v1 ->
            map_zoom v3 = map_zoom v1 ->
            (exists v, (match st_folium (map_center v3) (map_zoom v3) (m v3) with
                        | Ok _ => (Done (render_step show_table v3), lk')
                        | Raise e' => (Crashed e' v3, lk')
                        end).1 = Crashed e v) ->
            exists markers, st_folium (map_center v1) (map_zoom v1) markers = Raise e).
  { intros v3 E1 E2. rewrite E1, E2.
    destruct (st_folium _ _ (m v3)) as [[]|e1] eqn:Hst; [by intros [v ?]|].
    intros [v [= -> _]]. eauto. }
  destruct (search_result geocode q lk) as [c|] eqn:Hsr.
  - destruct (map_center v1) as [|c1] eqn:Hcenter; [done|]. injection Hc1 as ->.
    rewrite Hq by done.
    destruct (folium_Marker _ _ _ _) as [k|e'] eqn:Hk; cbn [fst].
    + repeat split; [|done|].
      * intros Hcr. right. right.
        apply (Hlast (add_to_m k v2)); [by simpl|by simpl|done].
      * intros _ c' [= <-] Hr. congruence.
    + repeat split; [|done|].
      * intros [v [= -> _]]. right. left. eauto.
      * intros _ c' [= <-] Hr. rewrite Hk in Hr. injection Hr as ->. eauto.
  - destruct (map_center v1) as [|c1] eqn:Hcenter; [|done].
    repeat split; [|done|done].
    intros Hcr. right. right. by apply (Hlast v2).
Qed.

Lemma run_crashes_only_outside_plotting_loop_witness :
  exists v, (run_loaded nan_provider (fun _ _ => "nan") checked_Map checked_Marker
               any_st_folium "Paris" false [] [] fresh).1 = Crashed ValueError v.
Proof.
  apply (proj1 (proj2 (run_crashes_only_outside_plotting_loop nan_provider
                  (fun _ _ => "nan") checked_Map checked_Marker any_st_folium
                  "Paris" false [] [] fresh ValueError))).
  reflexivity.
Defined.

(** X18: A load that fails is kept: once the function has returned [None],
    the run stops after the messages of the load (the error of line 85
    when the load ended in the handler of line 84) and the failure
    message of the sidebar, and so does every later run of the process,
    whatever the file holds by then and whatever is typed in the search
    box; none of them sends a request. *)
Theorem failed_load_stops_every_run
    (geocode : World -> string -> response * N)
    (format_float : nat -> spec_float -> string)
    (folium_Map : Center -> Z -> exc unit)
    (folium_Marker : Center -> option string -> string -> string * string -> exc Marker)
    (st_folium : Center -> Z -> list Marker -> exc unit)
    (inputs : list (string * bool * exc Element)) (s : Session)
    (shown : list message) :
  load_cache s !! FILE_PATH = Some (None, shown) \/
  (load_cache s !! FILE_PATH = None /\
   exists q b file rest, inputs = (q, b, file) :: rest /\
                         load_and_parse_xml_data file = None /\
                         shown = load_and_parse_xml_data_shown file) ->
  Forall (fun r => r = Stopped
            (map Main shown ++
             [Sidebar (Error "Failed to load or parse location data from the file." None)])%list)
         (run_session geocode format_float folium_Map folium_Marker st_folium
            inputs s).1 /\
  lookup (run_session geocode format_float folium_Map folium_Marker st_folium
            inputs s).2 = lookup s.
Proof.
  assert (Hcached : forall inputs s, load_cache s !! FILE_PATH = Some (None, shown) ->
    Forall (fun r => r = Stopped
              (map Main shown ++
               [Sidebar (Error "Failed to load or parse location data from the file." None)])%list)
           (run_session geocode format_float folium_Map folium_Marker st_folium
              inputs s).1 /\
    lookup (run_session geocode format_float folium_Map folium_Marker st_folium
              inputs s).2 = lookup s).
  { clear. intros inputs. induction inputs as [|[[q b] file] inputs IH]; intros s Hc.
    - simpl. split; [constructor|done].
    - simpl. unfold run_script, cached_load. rewrite Hc.
      destruct (IH (mkSession (load_cache s) (lookup s)) Hc) as [Hrs Hlk].
      destruct (run_session _ _ _ _ _ inputs _) as [rs s2]. simpl in *.
      split; [by constructor|done]. }
  intros [Hc | (Hc & q & b & file & rest & -> & Hload & ->)]; [by apply Hcached|].
  simpl. unfold run_script, cached_load. rewrite Hc, Hload.
  destruct (Hcached rest
              (mkSession (<[FILE_PATH:=(None, load_and_parse_xml_data_shown file)]>
                            (load_cache s)) (lookup s)))
    as [Hrs Hlk]; [apply lookup_insert_eq|].
  destruct (run_session _ _ _ _ _ rest _) as [rs s2]. simpl in *.
  split; [by constructor|done].
Qed.

Lemma failed_load_stops_every_run_witness :
  Forall (fun r => r = Stopped
            [Main (Error "Error during XML processing" (Some ParseError));
             Sidebar (Error "Failed to load or parse location data from the file." None)])
         (run_session quick_provider (fun _ _ => "0.0") any_Map any_Marker any_st_folium
            [("Paris", true, Raise ParseError);
             ("London", false,
              Ok (workbook "Full Map List" (header_rows ++ [ghostbusters_row])%list))]
            (mkSession ∅ fresh)).1 /\
  lookup (run_session quick_provider (fun _ _ => "0.0") any_Map any_Marker any_st_folium
            [("Paris", true, Raise ParseError);
             ("London", false,
              Ok (workbook "Full Map List" (header_rows ++ [ghostbusters_row])%list))]
            (mkSession ∅ fresh)).2 = lookup (mkSession ∅ fresh).
Proof.
  apply (failed_load_stops_every_run quick_provider (fun _ _ => "0.0") any_Map
           any_Marker any_st_folium _ (mkSession ∅ fresh)
           [Error "Error during XML processing" (Some ParseError)]).
  right. split; [reflexivity|].
  eexists _, _, _, _. repeat split; reflexivity.
Defined.

(** ** Claim C6 *)

(** C6: in a row whose other cells are in order (thirteen cells or more,
    a location that can be cleaned), an empty or missing latitude text is
    "no coordinate": [float] is not called, nothing is raised, and the
    row is passed over at line 67 (or skipped for its longitude); the
    latitude text [abc] is a parse failure: [float] raises [ValueError],
    caught at line 76, and the row is skipped. In both cases the row is
    not in the result, no exception leaves the loop, and the value
    returned is that of the document without the row. *)
Theorem C6_latitude_empty_or_malformed (row : Element) (loc : string) :
  (13 <= length (ET.findall (ss "Cell") row))%nat ->
  field row 8 (Some "") = Some loc ->
  truthy (cell_text 9 row) = false \/ cell_text 9 row = Some "abc" ->
  (truthy (cell_text 9 row) = false ->
     float_or_none (cell_text 9 row) = Ok None /\
     (process_row row = NotAppended \/ process_row row = Skipped ValueError) /\
     ((forall e, float_or_none (cell_text 10 row) <> Raise e) ->
      process_row row = NotAppended)) /\
  (cell_text 9 row = Some "abc" ->
     float_or_none (cell_text 9 row) = Raise ValueError /\
     process_row row = Skipped ValueError) /\
  (forall r, process_row row <> Appended r) /\
  (forall e, process_row row <> Escaped e) /\
  (forall (root root' : Element) (pre post : list Element),
      find_rows root = Some (pre ++ row :: post)%list ->
      find_rows root' = Some (pre ++ post)%list ->
      (3 <= length pre)%nat ->
      load_and_parse_xml_data (Ok root) = load_and_parse_xml_data (Ok root')).
Proof.
  intros Hlen Hloc Hlat.
  pose proof (process_row_cases _ Hlen) as Hp.
  rewrite Hloc, <- (cell_text_field row 9), <- (cell_text_field row 10) in Hp.
  assert (Hempty : truthy (cell_text 9 row) = false ->
            float_or_none (cell_text 9 row) = Ok None /\
            (process_row row = NotAppended \/ process_row row = Skipped ValueError) /\
            ((forall e, float_or_none (cell_text 10 row) <> Raise e) ->
             process_row row = NotAppended)).
  { intros Hf. pose proof (float_or_none_falsy _ Hf) as H9. rewrite H9 in Hp.
    split; [done|].
    destruct (float_or_none (cell_text 10 row)) as [lon|e] eqn:H10.
    - split; [by left|]. intros _. by destruct lon.
    - pose proof (float_or_none_raises _ _ H10) as ->. split; [by right|].
      intros Hno. by destruct (Hno ValueError). }
  assert (Habc : cell_text 9 row = Some "abc" ->
            float_or_none (cell_text 9 row) = Raise ValueError /\
            process_row row = Skipped ValueError).
  { intros H9. rewrite H9 in Hp |- *. split; [reflexivity|].
    rewrite Hp. reflexivity. }
  assert (Hout : process_row row = NotAppended \/
                 process_row row = Skipped ValueError).
  { destruct Hlat as [Hf | H9]; [by apply Hempty | right; by apply Habc]. }
  split; [exact Hempty|]. split; [exact Habc|].
  split; [|split].
  - intros r Hr. destruct Hout as [Ho | Ho]; congruence.
  - intros e He. destruct Hout as [Ho | Ho]; congruence.
  - intros root root' pre post. apply load_without_passed_row.
    + unfold appended_record. by destruct Hout as [-> | ->].
    + intros e He. destruct Hout as [Ho | Ho]; congruence.
Qed.

Lemma C6_latitude_empty_or_malformed_witness :
  (process_row abc_row = Skipped ValueError /\
   load_and_parse_xml_data
     (Ok (workbook "Full Map List" (header_rows ++ [abc_row; ghostbusters_row])%list))
   = load_and_parse_xml_data
       (Ok (workbook "Full Map List" (header_rows ++ [ghostbusters_row])%list))) /\
  (process_row empty_row = NotAppended /\
   load_and_parse_xml_data
     (Ok (workbook "Full Map List" (header_rows ++ [empty_row; ghostbusters_row])%list))
   = load_and_parse_xml_data
       (Ok (workbook "Full Map List" (header_rows ++ [ghostbusters_row])%list))) /\
  process_row no_latitude_row = NotAppended.
Proof.
  assert (Hlen : forall r, r = abc_row \/ r = empty_row \/ r = no_latitude_row ->
            (13 <= length (ET.findall (ss "Cell") r))%nat).
  { intros r [-> | [-> | ->]]; vm_compute; lia. }
  destruct (C6_latitude_empty_or_malformed abc_row "Coney Island<br>Brooklyn")
    as (_ & Habc & _ & _ & Hdoc1);
    [apply Hlen; by left | reflexivity | right; reflexivity |].
  destruct (C6_latitude_empty_or_malformed empty_row "Coney Island<br>Brooklyn")
    as (Hempty & _ & _ & _ & Hdoc2);
    [apply Hlen; right; by left | reflexivity | left; reflexivity |].
  destruct (C6_latitude_empty_or_malformed no_latitude_row "Coney Island<br>Brooklyn")
    as (Hnone & _);
    [apply Hlen; right; by right | reflexivity | left; reflexivity |].
  split; [|split].
  - split; [exact (proj2 (Habc eq_refl))|].
    exact (Hdoc1 (workbook "Full Map List"
                    (header_rows ++ [abc_row; ghostbusters_row])%list)
                 (workbook "Full Map List" (header_rows ++ [ghostbusters_row])%list)
                 header_rows [ghostbusters_row] eq_refl eq_refl (le_n 3)).
  - split.
    + apply (proj2 (proj2 (Hempty eq_refl))). intros e. vm_compute. discriminate.
    + exact (Hdoc2 (workbook "Full Map List"
                      (header_rows ++ [empty_row; ghostbusters_row])%list)
                   (workbook "Full Map List" (header_rows ++ [ghostbusters_row])%list)
                   header_rows [ghostbusters_row] eq_refl eq_refl (le_n 3)).
  - apply (proj2 (proj2 (Hnone eq_refl))). intros e. vm_compute. discriminate.
Defined.
